(** * OCPP 1.6J charge point simulator: protocol engine and session state

    A shallow embedding of [OCPPEndDevice.js].  The source file holds two
    programs: the headless simulator (lines 1-439, module [Headless]) and the
    interactive one (lines 440-1122, module [Interactive]).

    - JSON values are the type [JVal]; numbers are integers (fractions and
      floating-point rounding are outside the model).
    - An [async function] is a value of the resumption monad [Async]: a tree
      of synchronous operations on the module-level variables and on the
      runtime, cut at every [await].
    - The Node.js runtime is the record [World]: the module-level variables,
      the [pending] map of [sendCALL], the table of live timers, and the
      trace of what the program did to the outside (frames handed to
      [ws.send], console lines, [ws.close()] ...).  [ws.send] is taken to
      accept every frame.
    - The event loop is the function [deliver]: one macrotask (socket event
      or timer) runs its handler up to the next suspension point.  Time is
      abstract: a timer fires when the environment delivers [Fire h].
    - Of the process-signal handlers, the SIGINT handler of the headless
      simulator is modelled up to [process.exit] (module
      [HeadlessShutdown]); the shutdown of the interactive simulator is
      not. *)

From Stdlib Require Import ZArith QArith Qabs Qround Lqa String List.
From stdpp Require Import gmap strings list fin_maps pretty.

Local Open Scope string_scope.
Local Open Scope Z_scope.

(** ** JSON values and the JavaScript operators the program applies to them *)

#[warnings="-register-all"]
Inductive JVal : Type :=
| JUndef
| JNull
| JBool (b : bool)
| JNum (n : Z)
| JStr (s : string)
| JArr (items : list JVal)
| JObj (fields : list (string * JVal)).

(** [new Error(message)], also the engine's [TypeError]; the program only
    ever reads [e.message]. *)
Record JsError : Type := mkError { message : string }.

(** JavaScript truthiness, as used by [||] and [if]. *)
Definition truthy (v : JVal) : bool :=
  match v with
  | JUndef | JNull => false
  | JBool b => b
  | JNum n => negb (n =? 0)
  | JStr s => negb (String.eqb s "")
  | JArr _ | JObj _ => true
  end.

(** [a || b] *)
Definition js_or (a b : JVal) : JVal := if truthy a then a else b.

(** [a ?? b] *)
Definition js_nullish (a b : JVal) : JVal :=
  match a with
  | JUndef | JNull => b
  | _ => a
  end.

(** [v === 'lit'] for a string literal. *)
Definition is_str (v : JVal) (lit : string) : bool :=
  match v with
  | JStr s => String.eqb s lit
  | _ => false
  end.

(** [v === n] for a number literal. *)
Definition is_num (v : JVal) (lit : Z) : bool :=
  match v with
  | JNum n => n =? lit
  | _ => false
  end.

Fixpoint field (fields : list (string * JVal)) (key : string) : JVal :=
  match fields with
  | [] => JUndef
  | (k, v) :: rest => if String.eqb k key then v else field rest key
  end.

(** [v?.key].  The keys the program reads ([status], [interval], [idTag],
    ...) are own properties of objects only, so every other value that is
    not null or undefined gives [undefined]. *)
Definition get_opt (v : JVal) (key : string) : JVal :=
  match v with
  | JObj fields => field fields key
  | _ => JUndef
  end.

(** Template-literal conversion [`${v}`] (numbers below 10^21 in size). *)
Fixpoint to_string (v : JVal) : string :=
  match v with
  | JUndef => "undefined"
  | JNull => "null"
  | JBool true => "true"
  | JBool false => "false"
  | JNum n => pretty n
  | JStr s => s
  | JArr items =>
      String.concat ","
        (List.map (fun x => match x with
                            | JUndef | JNull => ""
                            | _ => to_string x
                            end) items)
  | JObj _ => "[object Object]"
  end.

(** [v * n] where [v] is a number.  For other operands JavaScript goes
    through [ToNumber], which is not modelled: [None]. *)
Definition js_times (v : JVal) (n : Z) : option Z :=
  match v with
  | JNum m => Some (m * n)
  | _ => None
  end.

(** [q.toFixed(3)] for a rational [q] below 10^21 in size: the sign, then
    the magnitude rounded to three decimals, halves upwards.  (The program
    applies it to [n / 1000] with [n] an integer, where no rounding
    happens.) *)
Definition pad3 (n : Z) : string :=
  let s := pretty n in
  if n <? 10 then "00" +:+ s else if n <? 100 then "0" +:+ s else s.

Definition toFixed3 (q : Q) : string :=
  let m := Qfloor (Qabs q * 1000 + (1 # 2))%Q in
  (if Qnum q <? 0 then "-" else "")
    +:+ pretty (m / 1000) +:+ "." +:+ pad3 (m mod 1000).

(** ** Effects visible outside the program *)

Inductive Effect : Type :=
| WsSend (frame : JVal)            (* ws.send(JSON.stringify(frame)) *)
| WsClose                          (* ws.close() *)
| NewWebSocket (url : string)      (* ws = new WebSocket(url, ...) *)
| ConsoleLog (args : list JVal)    (* console.log(...args) *)
| UnhandledRejection (e : JsError). (* a promise rejected with no handler *)

(** The three frames of OCPP-J: [[2, uid, action, payload]],
    [[3, uid, payload]] and [[4, uid, code, description, details]]. *)
Definition CALL (uid action : string) (payload : JVal) : JVal :=
  JArr [JNum 2; JStr uid; JStr action; payload].
Definition CALLRESULT (uid payload : JVal) : JVal :=
  JArr [JNum 3; uid; payload].
Definition CALLERROR (uid : JVal) (code description : string) (details : JVal) : JVal :=
  JArr [JNum 4; uid; JStr code; JStr description; details].

(** How a promise returned by [sendCALL] settles. *)
Inductive Outcome : Type :=
| Resolved (payload : JVal)
| Rejected (e : JsError).

(** ** The resumption monad of async functions and the runtime *)

Section Engine.

(** [G]: the module-level variables.  [Cb]: the callbacks the program hands
    to [setInterval] and [setTimeout]. *)
Context {G Cb : Type}.

Inductive Async (A : Type) : Type :=
| Ret (a : A)
| Throw (e : JsError)
| Load (k : G -> Async A)                     (* read module-level variables *)
| Store (f : G -> G) (k : Async A)            (* assign module-level variables *)
| Perform (e : Effect) (k : Async A)
| Now (k : string -> Async A)                 (* dayjs().toISOString() *)
| Random (k : Q -> Async A)                   (* Math.random() *)
| Uuid (k : string -> Async A)                (* uuidv4() *)
| SetInterval (cb : Cb) (ms : option Z) (k : nat -> Async A)
| ClearInterval (h : nat) (k : Async A)
| SetTimeout (cb : Cb) (ms : Z) (k : Async A)
| AwaitReply (uid action : string) (k : Outcome -> Async A)
    (* await new Promise((resolve, reject) => { pending.set(uid, ...); setTimeout(..., 20_000) }) *)
| AwaitDelay (ms : Z) (k : Async A).
    (* await new Promise(resolve => setTimeout(resolve, ms)) *)

Arguments Ret {A} a.
Arguments Throw {A} e.
Arguments Load {A} k.
Arguments Store {A} f k.
Arguments Perform {A} e k.
Arguments Now {A} k.
Arguments Random {A} k.
Arguments Uuid {A} k.
Arguments SetInterval {A} cb ms k.
Arguments ClearInterval {A} h k.
Arguments SetTimeout {A} cb ms k.
Arguments AwaitReply {A} uid action k.
Arguments AwaitDelay {A} ms k.

Fixpoint bind {A B : Type} (m : Async A) (f : A -> Async B) : Async B :=
  match m with
  | Ret a => f a
  | Throw e => Throw e
  | Load k => Load (fun g => bind (k g) f)
  | Store u k => Store u (bind k f)
  | Perform e k => Perform e (bind k f)
  | Now k => Now (fun t => bind (k t) f)
  | Random k => Random (fun r => bind (k r) f)
  | Uuid k => Uuid (fun u => bind (k u) f)
  | SetInterval cb ms k => SetInterval cb ms (fun h => bind (k h) f)
  | ClearInterval h k => ClearInterval h (bind k f)
  | SetTimeout cb ms k => SetTimeout cb ms (bind k f)
  | AwaitReply uid action k => AwaitReply uid action (fun o => bind (k o) f)
  | AwaitDelay ms k => AwaitDelay ms (bind k f)
  end.

(** [try { m } catch (e) { h e }], and [m.catch(h)] on a promise. *)
Fixpoint try_catch {A : Type} (m : Async A) (h : JsError -> Async A) : Async A :=
  match m with
  | Ret a => Ret a
  | Throw e => h e
  | Load k => Load (fun g => try_catch (k g) h)
  | Store u k => Store u (try_catch k h)
  | Perform e k => Perform e (try_catch k h)
  | Now k => Now (fun t => try_catch (k t) h)
  | Random k => Random (fun r => try_catch (k r) h)
  | Uuid k => Uuid (fun u => try_catch (k u) h)
  | SetInterval cb ms k => SetInterval cb ms (fun x => try_catch (k x) h)
  | ClearInterval x k => ClearInterval x (try_catch k h)
  | SetTimeout cb ms k => SetTimeout cb ms (try_catch k h)
  | AwaitReply uid action k => AwaitReply uid action (fun o => try_catch (k o) h)
  | AwaitDelay ms k => AwaitDelay ms (try_catch k h)
  end.

(** An entry of [pending]: [{ resolve, reject, action }].  Both closures
    resume the one function awaiting the promise, so they are one
    continuation on the [Outcome]. *)
Record Pending : Type := mkPending {
  p_action : string;
  p_settle : Outcome -> Async unit
}.

Inductive TimerTask : Type :=
| RequestDeadline (uid action : string)   (* the 20 s timer armed by sendCALL *)
| ResolveDelay (k : Async unit)           (* setTimeout(resolve, ms) *)
| Invoke (cb : Cb).                       (* a function of the program *)

(** A live timer.  [delay_ms] is the delay handed to [setInterval] or
    [setTimeout] ([None]: not a number in the model); what Node.js makes of
    a delay below 1 ms is not modelled. *)
Record Timer : Type := mkTimer {
  repeats : bool;                (* setInterval / setTimeout *)
  delay_ms : option Z;
  task : TimerTask
}.

Record World : Type := mkWorld {
  globals : G;
  pending : gmap string Pending;      (* const pending = new Map() *)
  timers : gmap nat Timer;            (* live timers of the runtime, by handle *)
  next_timer : nat;
  trace : list Effect;
  uuids : nat;                        (* uuids drawn so far *)
  clock : string;                     (* what dayjs().toISOString() returns now *)
  rng : nat -> Q;                     (* the draws Math.random() will return *)
  rng_pos : nat
}.

Definition with_globals (g : G) (w : World) : World :=
  mkWorld g (pending w) (timers w) (next_timer w) (trace w) (uuids w) (clock w) (rng w) (rng_pos w).

Definition with_pending (p : gmap string Pending) (w : World) : World :=
  mkWorld (globals w) p (timers w) (next_timer w) (trace w) (uuids w) (clock w) (rng w) (rng_pos w).

Definition with_timers (t : gmap nat Timer) (n : nat) (w : World) : World :=
  mkWorld (globals w) (pending w) t n (trace w) (uuids w) (clock w) (rng w) (rng_pos w).

Definition with_trace (tr : list Effect) (w : World) : World :=
  mkWorld (globals w) (pending w) (timers w) (next_timer w) tr (uuids w) (clock w) (rng w) (rng_pos w).

Definition with_uuids (n : nat) (w : World) : World :=
  mkWorld (globals w) (pending w) (timers w) (next_timer w) (trace w) n (clock w) (rng w) (rng_pos w).

Definition with_clock (t : string) (w : World) : World :=
  mkWorld (globals w) (pending w) (timers w) (next_timer w) (trace w) (uuids w) t (rng w) (rng_pos w).

Definition with_rng_pos (n : nat) (w : World) : World :=
  mkWorld (globals w) (pending w) (timers w) (next_timer w) (trace w) (uuids w) (clock w) (rng w) n.

Definition emit (e : Effect) (w : World) : World :=
  with_trace (trace w ++ [e]) w.

Definition arm (t : Timer) (w : World) : World :=
  with_timers (<[next_timer w := t]> (timers w)) (S (next_timer w)) w.

(** [uuidv4()]: the n-th identifier drawn.  Identifiers are fresh; the
    collisions of random UUIDs are not modelled. *)
Definition uuid_of (n : nat) : string := "uuid-" +:+ pretty n.

(** Where a synchronous run of an async function stops. *)
Inductive Completion (A : Type) : Type :=
| Returned (a : A)
| Thrown (e : JsError)
| AwaitingReply (uid action : string) (k : Outcome -> Async A)
| AwaitingDelay (ms : Z) (k : Async A).

Arguments Returned {A} a.
Arguments Thrown {A} e.
Arguments AwaitingReply {A} uid action k.
Arguments AwaitingDelay {A} ms k.

(** Run to the next suspension point (or to the end). *)
Fixpoint run {A : Type} (t : Async A) (w : World) : World * Completion A :=
  match t with
  | Ret a => (w, Returned a)
  | Throw e => (w, Thrown e)
  | AwaitReply uid action k => (w, AwaitingReply uid action k)
  | AwaitDelay ms k => (w, AwaitingDelay ms k)
  | Load k => run (k (globals w)) w
  | Store f k => run k (with_globals (f (globals w)) w)
  | Perform e k => run k (emit e w)
  | Now k => run (k (clock w)) w
  | Random k => run (k (rng w (rng_pos w))) (with_rng_pos (S (rng_pos w)) w)
  | Uuid k => run (k (uuid_of (uuids w))) (with_uuids (S (uuids w)) w)
  | SetInterval cb ms k =>
      run (k (next_timer w)) (arm (mkTimer true ms (Invoke cb)) w)
  | ClearInterval h k =>
      run k (with_timers (delete h (timers w)) (next_timer w) w)
  | SetTimeout cb ms k =>
      run k (arm (mkTimer false (Some ms) (Invoke cb)) w)
  end.

(** The worlds a synchronous run passes through: the world it starts in,
    then the world after each operation, in order. *)
Fixpoint history {A : Type} (t : Async A) (w : World) : list World :=
  w :: match t with
       | Ret _ | Throw _ | AwaitReply _ _ _ | AwaitDelay _ _ => []
       | Load k => history (k (globals w)) w
       | Store f k => history k (with_globals (f (globals w)) w)
       | Perform e k => history k (emit e w)
       | Now k => history (k (clock w)) w
       | Random k => history (k (rng w (rng_pos w))) (with_rng_pos (S (rng_pos w)) w)
       | Uuid k => history (k (uuid_of (uuids w))) (with_uuids (S (uuids w)) w)
       | SetInterval cb ms k =>
           history (k (next_timer w)) (arm (mkTimer true ms (Invoke cb)) w)
       | ClearInterval h k =>
           history k (with_timers (delete h (timers w)) (next_timer w) w)
       | SetTimeout cb ms k =>
           history k (arm (mkTimer false (Some ms) (Invoke cb)) w)
       end.

(** Start (or resume) a top-level task: run it to its next [await]; there
    the promise executor of [sendCALL] stores the continuation in [pending]
    and arms the 20 s deadline. *)
Definition spawn (t : Async unit) (w : World) : World :=
  match run t w with
  | (w', Returned _) => w'
  | (w', Thrown e) => emit (UnhandledRejection e) w'
  | (w', AwaitingReply uid action k) =>
      arm (mkTimer false (Some 20000) (RequestDeadline uid action))
          (with_pending (<[uid := mkPending action k]> (pending w')) w')
  | (w', AwaitingDelay ms k) =>
      arm (mkTimer false (Some ms) (ResolveDelay k)) w'
  end.

(** The callback of [setTimeout] inside [sendCALL] (source lines 75-80):
    [if (pending.has(uid)) { pending.delete(uid); reject(new Error(...)) }] *)
Definition deadline (uid action : string) (w : World) : World :=
  match pending w !! uid with
  | Some p =>
      spawn (p_settle p (Rejected (mkError
               ("Timeout waiting for " +:+ action +:+ " (" +:+ uid +:+ ")"))))
            (with_pending (delete uid (pending w)) w)
  | None => w
  end.

(** Timer [h] fires.  A handle that is not live cannot fire. *)
Definition fire (body : Cb -> Async unit) (h : nat) (w : World) : World :=
  match timers w !! h with
  | None => w
  | Some t =>
      let w1 := if repeats t then w
                else with_timers (delete h (timers w)) (next_timer w) w in
      match task t with
      | RequestDeadline uid action => deadline uid action w1
      | ResolveDelay k => spawn k w1
      | Invoke cb => spawn (body cb) w1
      end
  end.

End Engine.

Arguments Async G Cb A : clear implicits.
Arguments World G Cb : clear implicits.
Arguments Pending G Cb : clear implicits.
Arguments Timer G Cb : clear implicits.
Arguments TimerTask G Cb : clear implicits.
Arguments Completion G Cb A : clear implicits.
Arguments Ret {G Cb A} a.
Arguments Throw {G Cb A} e.
Arguments Load {G Cb A} k.
Arguments Store {G Cb A} f k.
Arguments Perform {G Cb A} e k.
Arguments Now {G Cb A} k.
Arguments Random {G Cb A} k.
Arguments Uuid {G Cb A} k.
Arguments SetInterval {G Cb A} cb ms k.
Arguments ClearInterval {G Cb A} h k.
Arguments SetTimeout {G Cb A} cb ms k.
Arguments AwaitReply {G Cb A} uid action k.
Arguments AwaitDelay {G Cb A} ms k.
Arguments Returned {G Cb A} a.
Arguments Thrown {G Cb A} e.
Arguments AwaitingReply {G Cb A} uid action k.
Arguments AwaitingDelay {G Cb A} ms k.

#[global] Instance Async_ret {G Cb : Type} : MRet (Async G Cb) := fun A a => Ret a.
#[global] Instance Async_bind {G Cb : Type} : MBind (Async G Cb) :=
  fun A B f m => bind m f.

(** Property access [v.key]: a [TypeError] on [null] and [undefined]. *)
Definition get {G Cb : Type} (v : JVal) (key : string) : Async G Cb JVal :=
  match v with
  | JUndef =>
      Throw (mkError ("Cannot read properties of undefined (reading '" +:+ key +:+ "')"))
  | JNull =>
      Throw (mkError ("Cannot read properties of null (reading '" +:+ key +:+ "')"))
  | _ => Ret (get_opt v key)
  end.

(** [console.log(...args)] *)
Definition console_log {G Cb : Type} (args : list JVal) : Async G Cb unit :=
  Perform (ConsoleLog args) (Ret tt).

(** [log(...args)]: [console.log(new Date().toISOString(), '-', ...args)] *)
Definition log {G Cb : Type} (args : list JVal) : Async G Cb unit :=
  Now (fun t => Perform (ConsoleLog (JStr t :: JStr "-" :: args)) (Ret tt)).

Definition ws_send {G Cb : Type} (frame : JVal) : Async G Cb unit :=
  Perform (WsSend frame) (Ret tt).

Definition ws_close {G Cb : Type} : Async G Cb unit :=
  Perform WsClose (Ret tt).

Definition nowRFC3339 {G Cb : Type} : Async G Cb string :=
  Now (fun t => Ret t).

(** [if (t) clearInterval(t); return null;] *)
Definition clearTimer {G Cb : Type} (t : option nat) : Async G Cb (option nat) :=
  match t with
  | Some h => ClearInterval h (Ret None)
  | None => Ret None
  end.

(** [sendCALL(action, payload)] together with the [await] (or the [.catch])
    every caller applies to the promise at once: draw the id, send the
    frame, then wait for the promise to settle. *)
Definition sendCALL {G Cb : Type} (action : string) (payload : JVal) : Async G Cb JVal :=
  uid ← Uuid (fun u => Ret u);
  let frame := CALL uid action payload in
  ws_send frame;;
  log [JStr ("=> " +:+ action); payload];;
  AwaitReply uid action (fun o => match o with
                                  | Resolved v => Ret v
                                  | Rejected e => Throw e
                                  end).

Definition sendCALLRESULT {G Cb : Type} (uid payload : JVal) : Async G Cb unit :=
  ws_send (CALLRESULT uid payload);;
  log [JStr ("=> CALLRESULT (" +:+ to_string uid +:+ ")"); payload].

Definition sendCALLERROR {G Cb : Type} (uid : JVal) (code description : string)
    (details : JVal) : Async G Cb unit :=
  ws_send (CALLERROR uid code description details);;
  log [JStr ("=> CALLERROR (" +:+ to_string uid +:+ ")"); JStr code; JStr description].

(** [pending.get(uid)] for the second element of an inbound frame: the keys
    of [pending] are strings, so any other value finds nothing. *)
Definition pending_get {G Cb : Type} (uid : JVal) (w : World G Cb)
    : option (string * Pending G Cb) :=
  match uid with
  | JStr u => match pending w !! u with
              | Some p => Some (u, p)
              | None => None
              end
  | _ => None
  end.

(** The frames handed to [ws.send], oldest first. *)
Definition sent {G Cb : Type} (w : World G Cb) : list JVal :=
  omap (fun e => match e with WsSend f => Some f | _ => None end) (trace w).

(** The console lines, oldest first. *)
Definition console {G Cb : Type} (w : World G Cb) : list (list JVal) :=
  omap (fun e => match e with ConsoleLog a => Some a | _ => None end) (trace w).

(** ** The headless simulator (source lines 1-439) *)

Module Headless.

Definition CP_ID := "PS001".
Definition SERVER_HOST := "localhost".
Definition SERVER_PORT := 8090.
Definition USE_SSL := false.
Definition USERNAME := "PS001".
Definition VENDOR := "MEV".
Definition MODEL := "MEV-AC7kW".
Definition FIRMWARE := "1.0.0".
Definition SERIAL := "SN-0001".
Definition CONNECTOR_ID := 1.
Definition DEFAULT_HB_SEC := 60.
Definition METER_PERIOD_SEC := 30.
Definition SERVER_URL :=
  (if USE_SSL then "wss" else "ws") +:+ "://" +:+ SERVER_HOST +:+ ":"
    +:+ pretty SERVER_PORT +:+ "/" +:+ CP_ID.
Definition SUBPROTOCOL := "ocpp1.6".

(** The module-level variables ([ws] is the socket, part of the outside). *)
Record Globals : Type := mkGlobals {
  connected : bool;
  bootAccepted : bool;
  hbTimer : option nat;
  meterTimer : option nat;
  transactionActive : bool;
  transactionId : JVal;
  currentMeterWh : Z;
  meterStartWh : Z;
  lastIdTag : JVal
}.

Definition initial : Globals :=
  mkGlobals false false None None false JNull 10000 0 JNull.

Definition set_connected (v : bool) (g : Globals) : Globals :=
  mkGlobals v (bootAccepted g) (hbTimer g) (meterTimer g) (transactionActive g)
    (transactionId g) (currentMeterWh g) (meterStartWh g) (lastIdTag g).
Definition set_bootAccepted (v : bool) (g : Globals) : Globals :=
  mkGlobals (connected g) v (hbTimer g) (meterTimer g) (transactionActive g)
    (transactionId g) (currentMeterWh g) (meterStartWh g) (lastIdTag g).
Definition set_hbTimer (v : option nat) (g : Globals) : Globals :=
  mkGlobals (connected g) (bootAccepted g) v (meterTimer g) (transactionActive g)
    (transactionId g) (currentMeterWh g) (meterStartWh g) (lastIdTag g).
Definition set_meterTimer (v : option nat) (g : Globals) : Globals :=
  mkGlobals (connected g) (bootAccepted g) (hbTimer g) v (transactionActive g)
    (transactionId g) (currentMeterWh g) (meterStartWh g) (lastIdTag g).
Definition set_transactionActive (v : bool) (g : Globals) : Globals :=
  mkGlobals (connected g) (bootAccepted g) (hbTimer g) (meterTimer g) v
    (transactionId g) (currentMeterWh g) (meterStartWh g) (lastIdTag g).
Definition set_transactionId (v : JVal) (g : Globals) : Globals :=
  mkGlobals (connected g) (bootAccepted g) (hbTimer g) (meterTimer g) (transactionActive g)
    v (currentMeterWh g) (meterStartWh g) (lastIdTag g).
Definition set_currentMeterWh (v : Z) (g : Globals) : Globals :=
  mkGlobals (connected g) (bootAccepted g) (hbTimer g) (meterTimer g) (transactionActive g)
    (transactionId g) v (meterStartWh g) (lastIdTag g).
Definition set_meterStartWh (v : Z) (g : Globals) : Globals :=
  mkGlobals (connected g) (bootAccepted g) (hbTimer g) (meterTimer g) (transactionActive g)
    (transactionId g) (currentMeterWh g) v (lastIdTag g).
Definition set_lastIdTag (v : JVal) (g : Globals) : Globals :=
  mkGlobals (connected g) (bootAccepted g) (hbTimer g) (meterTimer g) (transactionActive g)
    (transactionId g) (currentMeterWh g) (meterStartWh g) v.

(** The functions handed to [setInterval] and [setTimeout]. *)
Inductive Callback : Type :=
| HeartbeatTick     (* line 117 *)
| MeterTick         (* line 201 *)
| ResetClose        (* line 296 *)
| Reconnect.        (* line 406: connect *)

Abbreviation Task := (Async Globals Callback).
Abbreviation State := (World Globals Callback).

Definition assign (f : Globals -> Globals) : Task unit := Store f (Ret tt).
Definition read : Task Globals := Load (fun g => Ret g).

(** [(currentMeterWh - meterStartWh) / 1000] *)
Definition energyKWh (g : Globals) : Q :=
  (inject_Z (currentMeterWh g - meterStartWh g) / 1000)%Q.

Definition sendStatus (status errorCode : string) : Task unit :=
  ts ← nowRFC3339;
  sendCALL "StatusNotification"
    (JObj [("connectorId", JNum CONNECTOR_ID); ("status", JStr status);
           ("errorCode", JStr errorCode); ("timestamp", JStr ts)]);;
  log [JStr ("Status changed to: " +:+ status)].

Definition heartbeat_tick : Task unit :=
  g ← read;
  if connected g && bootAccepted g then
    try_catch (sendCALL "Heartbeat" (JObj []);; mret tt)
      (fun err => log [JStr "Heartbeat error:"; JStr (message err)])
  else mret tt.

Definition bootSequence : Task unit :=
  log [JStr "Starting boot sequence..."];;
  res ← sendCALL "BootNotification"
          (JObj [("chargePointVendor", JStr VENDOR); ("chargePointModel", JStr MODEL);
                 ("chargePointSerialNumber", JStr SERIAL); ("firmwareVersion", JStr FIRMWARE)]);
  log [JStr "BootNotification response:"; res];;
  status ← get res "status";
  if negb (is_str status "Accepted") then
    Throw (mkError ("Boot not accepted: " +:+ to_string status))
  else
    assign (set_bootAccepted true);;
    log [JStr "Boot accepted!"];;
    interval ← get res "interval";
    let hbSec := js_or interval (JNum DEFAULT_HB_SEC) in
    g ← read;
    cleared ← clearTimer (hbTimer g);
    assign (set_hbTimer cleared);;
    h ← SetInterval HeartbeatTick (js_times hbSec 1000) (fun h => Ret h);
    assign (set_hbTimer (Some h));;
    log [JStr ("Heartbeat scheduled every " +:+ to_string hbSec +:+ "s")];;
    sendStatus "Available" "NoError".

Definition authorize (idTag : JVal) : Task JVal :=
  log [JStr ("Authorizing idTag: " +:+ to_string idTag)];;
  res ← sendCALL "Authorize" (JObj [("idTag", idTag)]);
  log [JStr "Authorization response:"; res];;
  mret res.

Definition stopMeterLoop : Task unit :=
  g ← read;
  match meterTimer g with
  | Some h =>
      log [JStr "Stopping meter value loop"];;
      cleared ← clearTimer (Some h);
      assign (set_meterTimer cleared)
  | None => mret tt
  end.

Definition meter_tick : Task unit :=
  g ← read;
  if negb (transactionActive g) then mret tt
  else
    r ← Random (fun r => Ret r);
    let increment := Qfloor (120 + r * 80)%Q in
    assign (fun g => set_currentMeterWh (currentMeterWh g + increment) g);;
    ts ← nowRFC3339;
    g ← read;
    let meterValue :=
      JArr [JObj [("timestamp", JStr ts);
                  ("sampledValue",
                   JArr [JObj [("value", JStr (pretty (currentMeterWh g)));
                               ("measurand", JStr "Energy.Active.Import.Register");
                               ("unit", JStr "Wh")]])]] in
    log [JStr ("MeterValues: " +:+ pretty (currentMeterWh g) +:+ " Wh (session: "
                 +:+ toFixed3 (energyKWh g) +:+ " kWh)")];;
    try_catch
      (sendCALL "MeterValues"
         (JObj [("connectorId", JNum CONNECTOR_ID); ("transactionId", transactionId g);
                ("meterValue", meterValue)]);; mret tt)
      (fun err => log [JStr "MeterValues error:"; JStr (message err)]).

Definition startMeterLoop : Task unit :=
  stopMeterLoop;;
  log [JStr "Starting meter value loop..."];;
  h ← SetInterval MeterTick (Some (METER_PERIOD_SEC * 1000)) (fun h => Ret h);
  assign (set_meterTimer (Some h)).

Definition startTransaction (idTag : JVal) : Task unit :=
  log [JStr ("Starting transaction for idTag: " +:+ to_string idTag)];;
  assign (fun g => set_meterStartWh (currentMeterWh g) g);;
  g ← read;
  ts ← nowRFC3339;
  res ← sendCALL "StartTransaction"
          (JObj [("connectorId", JNum CONNECTOR_ID); ("idTag", idTag);
                 ("meterStart", JNum (meterStartWh g)); ("timestamp", JStr ts)]);
  tid ← get res "transactionId";
  assign (set_transactionId (js_nullish tid (JNum 1)));;
  assign (set_transactionActive true);;
  assign (set_lastIdTag idTag);;
  g ← read;
  log [JStr ("Transaction started: id=" +:+ to_string (transactionId g) +:+ ", meterStart="
               +:+ pretty (meterStartWh g) +:+ " Wh")];;
  sendStatus "Charging" "NoError";;
  startMeterLoop.

Definition stopTransaction (reason : string) : Task JVal :=
  g ← read;
  if negb (transactionActive g) then
    log [JStr "No active transaction to stop"];;
    mret JUndef
  else
    log [JStr ("Stopping transaction: id=" +:+ to_string (transactionId g) +:+ ", reason="
                 +:+ reason)];;
    stopMeterLoop;;
    g ← read;
    ts ← nowRFC3339;
    res ← sendCALL "StopTransaction"
            (JObj [("transactionId", transactionId g); ("meterStop", JNum (currentMeterWh g));
                   ("timestamp", JStr ts); ("reason", JStr reason)]);
    g ← read;
    log [JStr ("Transaction stopped: energy consumed = " +:+ toFixed3 (energyKWh g)
                 +:+ " kWh")];;
    assign (set_transactionActive false);;
    assign (set_transactionId JNull);;
    assign (set_lastIdTag JNull);;
    sendStatus "Available" "NoError";;
    mret res.

Definition handleIncoming (uid action payload : JVal) : Task unit :=
  log [JStr ("<= " +:+ to_string action); payload];;
  if is_str action "RemoteStartTransaction" then
    let idTag := js_or (get_opt payload "idTag") (JStr "DEMO-TAG") in
    let connectorId := js_or (get_opt payload "connectorId") (JNum CONNECTOR_ID) in
    log [JStr ("RemoteStartTransaction requested: idTag=" +:+ to_string idTag
                 +:+ ", connector=" +:+ to_string connectorId)];;
    try_catch
      (sendStatus "Preparing" "NoError";;
       auth ← authorize idTag;
       let status := js_or (get_opt (get_opt auth "idTagInfo") "status") (JStr "Accepted") in
       if negb (is_str status "Accepted") then
         log [JStr ("Authorization rejected: " +:+ to_string status)];;
         sendCALLRESULT uid (JObj [("status", JStr "Rejected")]);;
         sendStatus "Available" "NoError"
       else
         startTransaction idTag;;
         sendCALLRESULT uid (JObj [("status", JStr "Accepted")]))
      (fun e =>
         log [JStr "RemoteStartTransaction error:"; JStr (message e)];;
         sendCALLERROR uid "GenericError" (message e) (JObj []);;
         sendStatus "Available" "NoError")
  else if is_str action "RemoteStopTransaction" then
    log [JStr "RemoteStopTransaction requested"];;
    try_catch
      (g ← read;
       if transactionActive g then
         stopTransaction "Remote";;
         sendCALLRESULT uid (JObj [("status", JStr "Accepted")])
       else
         log [JStr "No active transaction to stop"];;
         sendCALLRESULT uid (JObj [("status", JStr "Rejected")]))
      (fun e =>
         log [JStr "RemoteStopTransaction error:"; JStr (message e)];;
         sendCALLERROR uid "GenericError" (message e) (JObj []))
  else if is_str action "Reset" then
    let resetType := js_or (get_opt payload "type") (JStr "Soft") in
    log [JStr ("Reset requested: " +:+ to_string resetType)];;
    sendCALLRESULT uid (JObj [("status", JStr "Accepted")]);;
    SetTimeout ResetClose 300 (Ret tt)
  else if is_str action "ChangeAvailability" then
    log [JStr "ChangeAvailability received"];;
    sendCALLRESULT uid (JObj [("status", JStr "Accepted")])
  else if is_str action "UnlockConnector" then
    log [JStr "UnlockConnector received"];;
    sendCALLRESULT uid (JObj [("status", JStr "Unlocked")])
  else
    log [JStr ("Action not implemented: " +:+ to_string action)];;
    sendCALLERROR uid "NotImplemented"
      ("Action " +:+ to_string action +:+ " not implemented") (JObj []).

Definition rule : string := String.concat "" (replicate 60 "=").

Definition connect : Task unit :=
  log [JStr rule];;
  log [JStr "Connecting to OCPP Server"];;
  log [JStr ("  Charger ID: " +:+ CP_ID)];;
  log [JStr ("  Server URL: " +:+ SERVER_URL)];;
  log [JStr ("  Protocol: " +:+ SUBPROTOCOL)];;
  log [JStr ("  Auth: " +:+ USERNAME)];;
  log [JStr rule];;
  Perform (NewWebSocket SERVER_URL) (Ret tt).

(** [ws.on('open', ...)] *)
Definition on_open : Task unit :=
  assign (set_connected true);;
  log [JStr "WebSocket CONNECTED!"];;
  try_catch bootSequence
    (fun e => log [JStr "Boot sequence failed:"; JStr (message e)];; ws_close).

(** [ws.on('message', ...)] once [JSON.parse(data)] has given [msg]. *)
Definition on_message (msg : JVal) (w : State) : State :=
  match msg with
  | JArr (type :: uid :: third :: rest) =>
      if is_num type 3 then
        match pending_get uid w with
        | None => w
        | Some (u, p) =>
            let payload := third in
            spawn (p_settle p (Resolved payload))
              (spawn (log [JStr ("<= CALLRESULT for " +:+ p_action p); payload])
                 (with_pending (delete u (pending w)) w))
        end
      else if is_num type 4 then
        match pending_get uid w with
        | None => w
        | Some (u, p) =>
            let code := third in
            let desc := hd JUndef rest in
            spawn (p_settle p (Rejected (mkError
                     (p_action p +:+ " failed: " +:+ to_string code +:+ " " +:+ to_string desc))))
              (spawn (log [JStr ("<= CALLERROR for " +:+ p_action p +:+ ": "
                                   +:+ to_string code +:+ " - " +:+ to_string desc)])
                 (with_pending (delete u (pending w)) w))
        end
      else if is_num type 2 then
        let action := third in
        let payload := hd JUndef rest in
        spawn (try_catch (handleIncoming uid action payload)
                 (fun err =>
                    log [JStr "Handler error:"; JStr (message err)];;
                    sendCALLERROR uid "GenericError" (message err) (JObj [])))
              w
      else spawn (log [JStr "Unknown OCPP message type:"; type]) w
  | _ => spawn (log [JStr "Invalid OCPP frame:"; msg]) w
  end.

(** [ws.on('close', ...)] *)
Definition on_close (code reason : JVal) : Task unit :=
  assign (set_connected false);;
  assign (set_bootAccepted false);;
  g ← read;
  cleared ← clearTimer (hbTimer g);
  assign (set_hbTimer cleared);;
  stopMeterLoop;;
  log [JStr "WebSocket CLOSED"];;
  log [JStr ("  Code: " +:+ to_string code)];;
  log [JStr ("  Reason: " +:+ to_string (js_or reason (JStr "No reason provided")))];;
  log [JStr "Reconnecting in 5 seconds..."];;
  SetTimeout Reconnect 5000 (Ret tt).

Definition callback (cb : Callback) : Task unit :=
  match cb with
  | HeartbeatTick => heartbeat_tick
  | MeterTick => meter_tick
  | ResetClose => log [JStr "Executing reset..."];; ws_close
  | Reconnect => connect
  end.

(** What the environment can do to the running program. *)
Inductive Event : Type :=
| Open                              (* the socket opened *)
| Message (msg : JVal)              (* a text frame that parses as JSON *)
| Garbage (data : string)           (* a frame on which JSON.parse throws *)
| Close (code reason : JVal)        (* the socket closed *)
| SocketError (msg : string)
| Fire (h : nat)                    (* the timer with handle h fires *)
| Tick (t : string).                (* the wall clock moves on *)

Definition deliver (w : State) (ev : Event) : State :=
  match ev with
  | Open => spawn on_open w
  | Message msg => on_message msg w
  | Garbage data => spawn (log [JStr "Invalid JSON from server:"; JStr data]) w
  | Close code reason => spawn (on_close code reason) w
  | SocketError msg => spawn (log [JStr "WebSocket ERROR:"; JStr msg]) w
  | Fire h => fire callback h w
  | Tick t => with_clock t w
  end.

Definition deliver_all (w : State) (evs : list Event) : State :=
  fold_left deliver evs w.

(** The top-level statements of the program (lines 415-420). *)
Definition main : Task unit :=
  log [JStr "OCPP 1.6J Charge Point Simulator"];;
  log [JStr "Vendor:"; JStr VENDOR];;
  log [JStr "Model:"; JStr MODEL];;
  log [JStr "Serial:"; JStr SERIAL];;
  log [JStr ""];;
  connect.

(** The program just started, at time [t0], with [draws] the values
    [Math.random()] is going to return. *)
Definition start (t0 : string) (draws : nat -> Q) : State :=
  spawn main (mkWorld initial ∅ ∅ 0%nat [] 0%nat t0 draws 0%nat).

End Headless.

(** ** The interactive simulator (source lines 440-1122) *)

Module Interactive.

Definition CP_ID := "TG001".
Definition SERVER_HOST := "localhost".
Definition SERVER_PORT := 8090.
Definition USE_SSL := false.
Definition USERNAME := "TG001".
Definition VENDOR := "MEV".
Definition MODEL := "MEV-AC7kW".
Definition FIRMWARE := "1.0.0".
Definition SERIAL := "SN-0001".
Definition CONNECTOR_ID := 1.
Definition DEFAULT_HB_SEC := 60.
Definition METER_PERIOD_SEC := 10.
Definition SERVER_URL :=
  (if USE_SSL then "wss" else "ws") +:+ "://" +:+ SERVER_HOST +:+ ":"
    +:+ pretty SERVER_PORT +:+ "/" +:+ CP_ID.
Definition SUBPROTOCOL := "ocpp1.6".

Record Globals : Type := mkGlobals {
  connected : bool;
  bootAccepted : bool;
  hbTimer : option nat;
  meterTimer : option nat;
  currentStatus : string;
  transactionActive : bool;
  transactionId : JVal;
  currentMeterWh : Z;
  meterStartWh : Z;
  lastIdTag : JVal;
  isRemoteStart : bool
}.

Definition initial : Globals :=
  mkGlobals false false None None "Available" false JNull 10000 0 JNull false.

Definition set_connected (v : bool) (g : Globals) : Globals :=
  mkGlobals v (bootAccepted g) (hbTimer g) (meterTimer g) (currentStatus g)
    (transactionActive g) (transactionId g) (currentMeterWh g) (meterStartWh g)
    (lastIdTag g) (isRemoteStart g).
Definition set_bootAccepted (v : bool) (g : Globals) : Globals :=
  mkGlobals (connected g) v (hbTimer g) (meterTimer g) (currentStatus g)
    (transactionActive g) (transactionId g) (currentMeterWh g) (meterStartWh g)
    (lastIdTag g) (isRemoteStart g).
Definition set_hbTimer (v : option nat) (g : Globals) : Globals :=
  mkGlobals (connected g) (bootAccepted g) v (meterTimer g) (currentStatus g)
    (transactionActive g) (transactionId g) (currentMeterWh g) (meterStartWh g)
    (lastIdTag g) (isRemoteStart g).
Definition set_meterTimer (v : option nat) (g : Globals) : Globals :=
  mkGlobals (connected g) (bootAccepted g) (hbTimer g) v (currentStatus g)
    (transactionActive g) (transactionId g) (currentMeterWh g) (meterStartWh g)
    (lastIdTag g) (isRemoteStart g).
Definition set_currentStatus (v : string) (g : Globals) : Globals :=
  mkGlobals (connected g) (bootAccepted g) (hbTimer g) (meterTimer g) v
    (transactionActive g) (transactionId g) (currentMeterWh g) (meterStartWh g)
    (lastIdTag g) (isRemoteStart g).
Definition set_transactionActive (v : bool) (g : Globals) : Globals :=
  mkGlobals (connected g) (bootAccepted g) (hbTimer g) (meterTimer g) (currentStatus g)
    v (transactionId g) (currentMeterWh g) (meterStartWh g)
    (lastIdTag g) (isRemoteStart g).
Definition set_transactionId (v : JVal) (g : Globals) : Globals :=
  mkGlobals (connected g) (bootAccepted g) (hbTimer g) (meterTimer g) (currentStatus g)
    (transactionActive g) v (currentMeterWh g) (meterStartWh g)
    (lastIdTag g) (isRemoteStart g).
Definition set_currentMeterWh (v : Z) (g : Globals) : Globals :=
  mkGlobals (connected g) (bootAccepted g) (hbTimer g) (meterTimer g) (currentStatus g)
    (transactionActive g) (transactionId g) v (meterStartWh g)
    (lastIdTag g) (isRemoteStart g).
Definition set_meterStartWh (v : Z) (g : Globals) : Globals :=
  mkGlobals (connected g) (bootAccepted g) (hbTimer g) (meterTimer g) (currentStatus g)
    (transactionActive g) (transactionId g) (currentMeterWh g) v
    (lastIdTag g) (isRemoteStart g).
Definition set_lastIdTag (v : JVal) (g : Globals) : Globals :=
  mkGlobals (connected g) (bootAccepted g) (hbTimer g) (meterTimer g) (currentStatus g)
    (transactionActive g) (transactionId g) (currentMeterWh g) (meterStartWh g)
    v (isRemoteStart g).
Definition set_isRemoteStart (v : bool) (g : Globals) : Globals :=
  mkGlobals (connected g) (bootAccepted g) (hbTimer g) (meterTimer g) (currentStatus g)
    (transactionActive g) (transactionId g) (currentMeterWh g) (meterStartWh g)
    (lastIdTag g) v.

Inductive Callback : Type :=
| HeartbeatTick     (* line 571 *)
| MeterTick         (* line 668 *)
| ShowMenu          (* lines 584 and 657 *)
| ResetClose        (* line 966 *)
| Reconnect.        (* line 1076: connect *)

Abbreviation Task := (Async Globals Callback).
Abbreviation State := (World Globals Callback).

Definition assign (f : Globals -> Globals) : Task unit := Store f (Ret tt).
Definition read : Task Globals := Load (fun g => Ret g).

(** The line feed of the JavaScript escape [\n]. *)
Definition nl : string := String (Ascii.ascii_of_nat 10) "".

Definition rule : string := String.concat "" (replicate 60 "=").

Definition energyKWh (g : Globals) : Q :=
  (inject_Z (currentMeterWh g - meterStartWh g) / 1000)%Q.

Definition showMenu : Task unit :=
  g ← read;
  if negb (connected g) || negb (bootAccepted g) then mret tt
  else
    console_log [JStr (nl +:+ rule)];;
    console_log [JStr ("📱 INTERACTIVE MENU - Current Status: " +:+ currentStatus g)];;
    console_log [JStr rule];;
    console_log [JStr "Commands:"];;
    console_log [JStr "  1 - Simulate user plug-in (Available → Preparing)"];;
    console_log [JStr "  2 - Simulate RFID card swipe (start independent charging)"];;
    console_log [JStr "  3 - Stop current charging session"];;
    console_log [JStr "  4 - Change to Available status"];;
    console_log [JStr "  5 - Show current status"];;
    console_log [JStr "  6 - Show session info"];;
    console_log [JStr "  q - Quit simulator"];;
    console_log [JStr rule];;
    console_log [JStr "💡 API Testing Flow:"];;
    console_log [JStr "   Step 1: Press 1 to plug in (status → Preparing)"];;
    console_log [JStr "   Step 2: Call your API: POST /api/start"];;
    console_log [JStr "   Step 3: Charging will start automatically"];;
    console_log [JStr "   Step 4: Call API: POST /api/stop (or press 3)"];;
    console_log [JStr rule];;
    console_log [JStr (nl +:+ "Enter command: ")].

Definition sendStatus (status errorCode : string) : Task unit :=
  assign (set_currentStatus status);;
  ts ← nowRFC3339;
  sendCALL "StatusNotification"
    (JObj [("connectorId", JNum CONNECTOR_ID); ("status", JStr status);
           ("errorCode", JStr errorCode); ("timestamp", JStr ts)]);;
  log [JStr ("📊 Status changed to: " +:+ status)].

Definition heartbeat_tick : Task unit :=
  g ← read;
  if connected g && bootAccepted g then
    try_catch (sendCALL "Heartbeat" (JObj []);; mret tt)
      (fun err => log [JStr "Heartbeat error:"; JStr (message err)])
  else mret tt.

Definition bootSequence : Task unit :=
  log [JStr "Starting boot sequence..."];;
  res ← sendCALL "BootNotification"
          (JObj [("chargePointVendor", JStr VENDOR); ("chargePointModel", JStr MODEL);
                 ("chargePointSerialNumber", JStr SERIAL); ("firmwareVersion", JStr FIRMWARE)]);
  log [JStr "BootNotification response:"; res];;
  status ← get res "status";
  if negb (is_str status "Accepted") then
    Throw (mkError ("Boot not accepted: " +:+ to_string status))
  else
    assign (set_bootAccepted true);;
    log [JStr "✅ Boot accepted!"];;
    interval ← get res "interval";
    let hbSec := js_or interval (JNum DEFAULT_HB_SEC) in
    g ← read;
    cleared ← clearTimer (hbTimer g);
    assign (set_hbTimer cleared);;
    h ← SetInterval HeartbeatTick (js_times hbSec 1000) (fun h => Ret h);
    assign (set_hbTimer (Some h));;
    log [JStr ("💓 Heartbeat scheduled every " +:+ to_string hbSec +:+ "s")];;
    sendStatus "Available" "NoError";;
    SetTimeout ShowMenu 1000 (Ret tt).

Definition authorize (idTag : JVal) : Task JVal :=
  log [JStr ("🔐 Authorizing idTag: " +:+ to_string idTag)];;
  res ← sendCALL "Authorize" (JObj [("idTag", idTag)]);
  log [JStr "Authorization response:"; res];;
  mret res.

Definition stopMeterLoop : Task unit :=
  g ← read;
  match meterTimer g with
  | Some h =>
      log [JStr "⏹️  Stopping meter value loop"];;
      cleared ← clearTimer (Some h);
      assign (set_meterTimer cleared)
  | None => mret tt
  end.

Definition meter_tick : Task unit :=
  g ← read;
  if negb (transactionActive g) then mret tt
  else
    r ← Random (fun r => Ret r);
    let increment := Qfloor (120 + r * 80)%Q in
    assign (fun g => set_currentMeterWh (currentMeterWh g + increment) g);;
    ts ← nowRFC3339;
    g ← read;
    let meterValue :=
      JArr [JObj [("timestamp", JStr ts);
                  ("sampledValue",
                   JArr [JObj [("value", JStr (pretty (currentMeterWh g)));
                               ("measurand", JStr "Energy.Active.Import.Register");
                               ("unit", JStr "Wh")]])]] in
    log [JStr ("⚡ MeterValues: " +:+ pretty (currentMeterWh g) +:+ " Wh (session: "
                 +:+ toFixed3 (energyKWh g) +:+ " kWh)")];;
    try_catch
      (sendCALL "MeterValues"
         (JObj [("connectorId", JNum CONNECTOR_ID); ("transactionId", transactionId g);
                ("meterValue", meterValue)]);; mret tt)
      (fun err => log [JStr "MeterValues error:"; JStr (message err)]).

Definition startMeterLoop : Task unit :=
  stopMeterLoop;;
  log [JStr "📈 Starting meter value loop..."];;
  h ← SetInterval MeterTick (Some (METER_PERIOD_SEC * 1000)) (fun h => Ret h);
  assign (set_meterTimer (Some h)).

Definition startTransaction (idTag : JVal) : Task unit :=
  log [JStr ("🔌 Starting transaction for idTag: " +:+ to_string idTag)];;
  assign (fun g => set_meterStartWh (currentMeterWh g) g);;
  g ← read;
  ts ← nowRFC3339;
  res ← sendCALL "StartTransaction"
          (JObj [("connectorId", JNum CONNECTOR_ID); ("idTag", idTag);
                 ("meterStart", JNum (meterStartWh g)); ("timestamp", JStr ts)]);
  tid ← get res "transactionId";
  assign (set_transactionId (js_nullish tid (JNum 1)));;
  assign (set_transactionActive true);;
  assign (set_lastIdTag idTag);;
  g ← read;
  log [JStr ("✅ Transaction started: id=" +:+ to_string (transactionId g) +:+ ", meterStart="
               +:+ pretty (meterStartWh g) +:+ " Wh")];;
  sendStatus "Charging" "NoError";;
  startMeterLoop.

Definition stopTransaction (reason : string) : Task JVal :=
  g ← read;
  if negb (transactionActive g) then
    log [JStr "❌ No active transaction to stop"];;
    mret JUndef
  else
    log [JStr ("🛑 Stopping transaction: id=" +:+ to_string (transactionId g) +:+ ", reason="
                 +:+ reason)];;
    stopMeterLoop;;
    g ← read;
    ts ← nowRFC3339;
    res ← sendCALL "StopTransaction"
            (JObj [("transactionId", transactionId g); ("meterStop", JNum (currentMeterWh g));
                   ("timestamp", JStr ts); ("reason", JStr reason)]);
    g ← read;
    log [JStr ("✅ Transaction stopped: energy consumed = " +:+ toFixed3 (energyKWh g)
                 +:+ " kWh")];;
    assign (set_transactionActive false);;
    assign (set_transactionId JNull);;
    assign (set_lastIdTag JNull);;
    assign (set_isRemoteStart false);;
    sendStatus "Available" "NoError";;
    SetTimeout ShowMenu 500 (Ret tt);;
    mret res.

Definition simulatePlugIn : Task unit :=
  console_log [JStr (nl +:+ "🔌 Simulating vehicle plug-in...")];;
  g ← read;
  if transactionActive g then
    console_log [JStr "❌ Cannot plug in - charging session is active"];;
    showMenu
  else
    try_catch
      (sendStatus "Preparing" "NoError";;
       console_log [JStr "✅ Status changed to Preparing"];;
       console_log [JStr "💡 Now you can call your API: POST /api/start with stationId: PS001-1"];;
       showMenu)
      (fun e =>
         console_log [JStr "❌ Error:"; JStr (message e)];;
         showMenu).

Definition simulateRFIDSwipe : Task unit :=
  console_log [JStr (nl +:+ "💳 Simulating RFID card swipe (independent charging)...")];;
  g ← read;
  if transactionActive g then
    console_log [JStr "❌ Charging session already active"];;
    showMenu
  else
    (if negb (String.eqb (currentStatus g) "Preparing") then
       console_log [JStr "⚠️  Vehicle not plugged in. Changing to Preparing first..."];;
       sendStatus "Preparing" "NoError";;
       AwaitDelay 500 (Ret tt)
     else mret tt);;
    r ← Random (fun r => Ret r);
    let idTag := JStr ("USER-RFID-" +:+ pretty (Qfloor (r * 1000)%Q)) in
    try_catch
      (auth ← authorize idTag;
       let status := js_or (get_opt (get_opt auth "idTagInfo") "status") (JStr "Accepted") in
       if negb (is_str status "Accepted") then
         console_log [JStr ("❌ Authorization rejected: " +:+ to_string status)];;
         sendStatus "Available" "NoError";;
         showMenu
       else
         console_log [JStr "✅ Authorization accepted, starting charging..."];;
         startTransaction idTag;;
         console_log [JStr "✅ Independent charging session started!"];;
         console_log [JStr "💡 This is a user-initiated session (not API-managed)"])
      (fun e =>
         console_log [JStr "❌ Error:"; JStr (message e)];;
         sendStatus "Available" "NoError";;
         showMenu).

Definition handleManualStop : Task unit :=
  console_log [JStr (nl +:+ "🛑 Stopping charging session...")];;
  g ← read;
  if negb (transactionActive g) then
    console_log [JStr "❌ No active charging session"];;
    showMenu
  else
    try_catch
      (stopTransaction "Local";;
       console_log [JStr "✅ Charging session stopped"])
      (fun e => console_log [JStr "❌ Error:"; JStr (message e)]).

Definition changeToAvailable : Task unit :=
  console_log [JStr (nl +:+ "📊 Changing status to Available...")];;
  g ← read;
  if transactionActive g then
    console_log [JStr "❌ Cannot change status - charging session is active"];;
    console_log [JStr "💡 Stop the charging session first (press 3)"];;
    showMenu
  else
    try_catch
      (sendStatus "Available" "NoError";;
       console_log [JStr "✅ Status changed to Available"];;
       showMenu)
      (fun e =>
         console_log [JStr "❌ Error:"; JStr (message e)];;
         showMenu).

Definition yes_no (b : bool) : string := if b then "Yes" else "No".
Definition start_type (b : bool) : string :=
  if b then "Remote/API" else "Independent/RFID".

Definition showCurrentStatus : Task unit :=
  g ← read;
  console_log [JStr (nl +:+ "📊 Current Status:")];;
  console_log [JStr ("  Status: " +:+ currentStatus g)];;
  console_log [JStr ("  Connected: " +:+ yes_no (connected g))];;
  console_log [JStr ("  Boot Accepted: " +:+ yes_no (bootAccepted g))];;
  console_log [JStr ("  Transaction Active: " +:+ yes_no (transactionActive g))];;
  (if transactionActive g then
     console_log [JStr ("  Transaction ID: " +:+ to_string (transactionId g))];;
     console_log [JStr ("  Start Type: " +:+ start_type (isRemoteStart g))]
   else mret tt);;
  showMenu.

Definition showSessionInfo : Task unit :=
  g ← read;
  console_log [JStr (nl +:+ "📈 Session Information:")];;
  (if negb (transactionActive g) then
     console_log [JStr "  No active session"]
   else
     console_log [JStr ("  Transaction ID: " +:+ to_string (transactionId g))];;
     console_log [JStr ("  ID Tag: " +:+ to_string (lastIdTag g))];;
     console_log [JStr ("  Start Type: " +:+ start_type (isRemoteStart g))];;
     console_log [JStr ("  Start Meter: " +:+ pretty (meterStartWh g) +:+ " Wh")];;
     console_log [JStr ("  Current Meter: " +:+ pretty (currentMeterWh g) +:+ " Wh")];;
     console_log [JStr ("  Energy Consumed: " +:+ toFixed3 (energyKWh g) +:+ " kWh")]);;
  showMenu.

(** [handleMenuInput(input)], from [cmd = input.trim()] on.  The quit
    command runs the shutdown handler, which is not modelled. *)
Definition handleMenuInput (cmd : string) : Task unit :=
  if String.eqb cmd "1" then simulatePlugIn
  else if String.eqb cmd "2" then simulateRFIDSwipe
  else if String.eqb cmd "3" then handleManualStop
  else if String.eqb cmd "4" then changeToAvailable
  else if String.eqb cmd "5" then showCurrentStatus
  else if String.eqb cmd "6" then showSessionInfo
  else if String.eqb cmd "q" || String.eqb cmd "Q" then mret tt
  else
    console_log [JStr "❌ Invalid command. Try again."];;
    showMenu.

Definition handleIncoming (uid action payload : JVal) : Task unit :=
  log [JStr ("<= " +:+ to_string action); payload];;
  if is_str action "RemoteStartTransaction" then
    let idTag := js_or (get_opt payload "idTag") (JStr "API-TAG") in
    let connectorId := js_or (get_opt payload "connectorId") (JNum CONNECTOR_ID) in
    log [JStr ("🎯 RemoteStartTransaction requested: idTag=" +:+ to_string idTag
                 +:+ ", connector=" +:+ to_string connectorId)];;
    console_log [JStr (nl +:+ "🚨 REMOTE START REQUEST RECEIVED FROM SERVER!")];;
    try_catch
      (g ← read;
       (if negb (String.eqb (currentStatus g) "Preparing") then
          console_log [JStr "⚠️  Status is not Preparing. Changing status..."];;
          sendStatus "Preparing" "NoError";;
          AwaitDelay 500 (Ret tt)
        else mret tt);;
       auth ← authorize idTag;
       let status := js_or (get_opt (get_opt auth "idTagInfo") "status") (JStr "Accepted") in
       if negb (is_str status "Accepted") then
         log [JStr ("❌ Authorization rejected: " +:+ to_string status)];;
         sendCALLRESULT uid (JObj [("status", JStr "Rejected")]);;
         sendStatus "Available" "NoError";;
         showMenu
       else
         console_log [JStr "✅ Authorization accepted, starting charging..."];;
         assign (set_isRemoteStart true);;
         startTransaction idTag;;
         sendCALLRESULT uid (JObj [("status", JStr "Accepted")]);;
         console_log [JStr "✅ Remote charging session started!"];;
         console_log [JStr "💡 This is an API-managed session"])
      (fun e =>
         log [JStr "❌ RemoteStartTransaction error:"; JStr (message e)];;
         sendCALLERROR uid "GenericError" (message e) (JObj []);;
         sendStatus "Available" "NoError";;
         showMenu)
  else if is_str action "RemoteStopTransaction" then
    log [JStr "🛑 RemoteStopTransaction requested"];;
    console_log [JStr (nl +:+ "🚨 REMOTE STOP REQUEST RECEIVED FROM SERVER!")];;
    try_catch
      (g ← read;
       if transactionActive g then
         stopTransaction "Remote";;
         sendCALLRESULT uid (JObj [("status", JStr "Accepted")]);;
         console_log [JStr "✅ Remote stop completed"]
       else
         log [JStr "❌ No active transaction to stop"];;
         sendCALLRESULT uid (JObj [("status", JStr "Rejected")]);;
         showMenu)
      (fun e =>
         log [JStr "❌ RemoteStopTransaction error:"; JStr (message e)];;
         sendCALLERROR uid "GenericError" (message e) (JObj []);;
         showMenu)
  else if is_str action "Reset" then
    let resetType := js_or (get_opt payload "type") (JStr "Soft") in
    log [JStr ("🔄 Reset requested: " +:+ to_string resetType)];;
    sendCALLRESULT uid (JObj [("status", JStr "Accepted")]);;
    SetTimeout ResetClose 300 (Ret tt)
  else if is_str action "ChangeAvailability" then
    log [JStr "📊 ChangeAvailability received"];;
    sendCALLRESULT uid (JObj [("status", JStr "Accepted")])
  else if is_str action "UnlockConnector" then
    log [JStr "🔓 UnlockConnector received"];;
    sendCALLRESULT uid (JObj [("status", JStr "Unlocked")])
  else
    log [JStr ("❌ Action not implemented: " +:+ to_string action)];;
    sendCALLERROR uid "NotImplemented"
      ("Action " +:+ to_string action +:+ " not implemented") (JObj []).

Definition connect : Task unit :=
  log [JStr rule];;
  log [JStr "🔌 Connecting to OCPP Server"];;
  log [JStr ("  Charger ID: " +:+ CP_ID)];;
  log [JStr ("  Server URL: " +:+ SERVER_URL)];;
  log [JStr ("  Protocol: " +:+ SUBPROTOCOL)];;
  log [JStr ("  Auth: " +:+ USERNAME)];;
  log [JStr rule];;
  Perform (NewWebSocket SERVER_URL) (Ret tt).

Definition on_open : Task unit :=
  assign (set_connected true);;
  log [JStr "✅ WebSocket CONNECTED!"];;
  try_catch bootSequence
    (fun e => log [JStr "❌ Boot sequence failed:"; JStr (message e)];; ws_close).

Definition on_message (msg : JVal) (w : State) : State :=
  match msg with
  | JArr (type :: uid :: third :: rest) =>
      if is_num type 3 then
        match pending_get uid w with
        | None => w
        | Some (u, p) =>
            let payload := third in
            spawn (p_settle p (Resolved payload))
              (spawn (log [JStr ("<= CALLRESULT for " +:+ p_action p); payload])
                 (with_pending (delete u (pending w)) w))
        end
      else if is_num type 4 then
        match pending_get uid w with
        | None => w
        | Some (u, p) =>
            let code := third in
            let desc := hd JUndef rest in
            spawn (p_settle p (Rejected (mkError
                     (p_action p +:+ " failed: " +:+ to_string code +:+ " " +:+ to_string desc))))
              (spawn (log [JStr ("<= CALLERROR for " +:+ p_action p +:+ ": "
                                   +:+ to_string code +:+ " - " +:+ to_string desc)])
                 (with_pending (delete u (pending w)) w))
        end
      else if is_num type 2 then
        let action := third in
        let payload := hd JUndef rest in
        spawn (try_catch (handleIncoming uid action payload)
                 (fun err =>
                    log [JStr "❌ Handler error:"; JStr (message err)];;
                    sendCALLERROR uid "GenericError" (message err) (JObj [])))
              w
      else spawn (log [JStr "❌ Unknown OCPP message type:"; type]) w
  | _ => spawn (log [JStr "❌ Invalid OCPP frame:"; msg]) w
  end.

Definition on_close (code reason : JVal) : Task unit :=
  assign (set_connected false);;
  assign (set_bootAccepted false);;
  g ← read;
  cleared ← clearTimer (hbTimer g);
  assign (set_hbTimer cleared);;
  stopMeterLoop;;
  log [JStr "❌ WebSocket CLOSED"];;
  log [JStr ("  Code: " +:+ to_string code)];;
  log [JStr ("  Reason: " +:+ to_string (js_or reason (JStr "No reason provided")))];;
  log [JStr "🔄 Reconnecting in 5 seconds..."];;
  SetTimeout Reconnect 5000 (Ret tt).

Definition callback (cb : Callback) : Task unit :=
  match cb with
  | HeartbeatTick => heartbeat_tick
  | MeterTick => meter_tick
  | ShowMenu => showMenu
  | ResetClose => log [JStr "Executing reset..."];; ws_close
  | Reconnect => connect
  end.

Inductive Event : Type :=
| Open
| Message (msg : JVal)
| Garbage (data : string)
| Close (code reason : JVal)
| SocketError (msg : string)
| Stdin (cmd : string)              (* a line typed by the operator, trimmed *)
| Fire (h : nat)
| Tick (t : string).

Definition deliver (w : State) (ev : Event) : State :=
  match ev with
  | Open => spawn on_open w
  | Message msg => on_message msg w
  | Garbage data => spawn (log [JStr "❌ Invalid JSON from server:"; JStr data]) w
  | Close code reason => spawn (on_close code reason) w
  | SocketError msg => spawn (log [JStr "❌ WebSocket ERROR:"; JStr msg]) w
  | Stdin cmd => spawn (handleMenuInput cmd) w
  | Fire h => fire callback h w
  | Tick t => with_clock t w
  end.

Definition deliver_all (w : State) (evs : list Event) : State :=
  fold_left deliver evs w.

(** The top-level statements of the program (lines 1105-1113). *)
Definition main : Task unit :=
  console_log [JStr (nl +:+ rule)];;
  console_log [JStr "⚡ OCPP 1.6J Charge Point Simulator - Interactive Version"];;
  console_log [JStr rule];;
  log [JStr "Vendor:"; JStr VENDOR];;
  log [JStr "Model:"; JStr MODEL];;
  log [JStr "Serial:"; JStr SERIAL];;
  console_log [JStr rule];;
  log [JStr ""];;
  connect.

Definition start (t0 : string) (draws : nat -> Q) : State :=
  spawn main (mkWorld initial ∅ ∅ 0%nat [] 0%nat t0 draws 0%nat).

End Interactive.

(** ** Vocabulary of the statements *)

Local Open Scope list_scope.

(** The payload of a [StatusNotification] call sent at time [ts]. *)
Definition status_payload (status errorCode ts : string) : JVal :=
  JObj [("connectorId", JNum 1); ("status", JStr status);
        ("errorCode", JStr errorCode); ("timestamp", JStr ts)].

Definition accepted : JVal := JObj [("status", JStr "Accepted")].
Definition rejected : JVal := JObj [("status", JStr "Rejected")].

(** The [CallError] the handlers build from a caught error. *)
Definition generic_error (uid : JVal) (description : string) : JVal :=
  CALLERROR uid "GenericError" description (JObj []).

(** A reply frame (CallResult or CallError) carrying the id [uid]. *)
Definition is_reply_to (uid : string) (frame : JVal) : bool :=
  match frame with
  | JArr (type :: JStr u :: _) => (is_num type 3 || is_num type 4) && String.eqb u uid
  | _ => false
  end.

Definition replies_to (uid : string) (frames : list JVal) : list JVal :=
  List.filter (is_reply_to uid) frames.

(** The action of a sent Call frame that carries [transactionId: tid]. *)
Definition call_about (tid : Z) (frame : JVal) : option string :=
  match frame with
  | JArr [type; _; JStr action; payload] =>
      if is_num type 2 && is_num (get_opt payload "transactionId") tid
      then Some action else None
  | _ => None
  end.

Definition calls_about (tid : Z) (frames : list JVal) : list string :=
  omap (call_about tid) frames.

(** The action of a sent Call frame. *)
Definition call_action (frame : JVal) : option string :=
  match frame with
  | JArr [type; _; JStr action; _] => if is_num type 2 then Some action else None
  | _ => None
  end.

Definition is_meter_values (frame : JVal) : bool :=
  match call_action frame with
  | Some action => String.eqb action "MeterValues"
  | None => false
  end.

(** *** Scenarios of the headless simulator *)

Module HeadlessScenario.
Import Headless.

Definition t0 : string := "2025-01-01T00:00:00.000Z".

(** Every [Math.random()] returns 0.375, so every metering tick adds
    [floor(120 + 0.375 * 80) = 150] Wh. *)
Definition draws : nat -> Q := fun _ => 3 # 8.

Definition reply (u : string) (payload : JVal) : Event :=
  Message (CALLRESULT (JStr u) payload).


Definition request (uid action : string) (payload : JVal) : Event :=
  Message (CALL uid action payload).

Definition remote_stop (uid payload : JVal) : Event :=
  Message (JArr [JNum 2; uid; JStr "RemoteStopTransaction"; payload]).

Definition authorized (status : string) : JVal :=
  JObj [("idTagInfo", JObj [("status", JStr status)])].

(** Connected and booted (heartbeat every 300 s), connector reported Available. *)
Definition booted : State :=
  deliver_all (start t0 draws)
    [Open;
     reply "uuid-0" (JObj [("status", JStr "Accepted"); ("interval", JNum 300)]);
     reply "uuid-1" (JObj [])].

(** A remote start up to the server's answer to StartTransaction: the
    transaction is active, the Charging notification is not acknowledged yet
    and the metering loop is not armed yet. *)
Definition starting : State :=
  deliver_all booted
    [request "srv-1" "RemoteStartTransaction" (JObj [("idTag", JStr "TAG-1")]);
     reply "uuid-2" (JObj []);
     reply "uuid-3" (authorized "Accepted");
     reply "uuid-4" (JObj [("transactionId", JNum 7)])].

(** Transaction 7 is running; the metering loop is the timer with handle 7. *)
Definition charging : State :=
  deliver_all starting [reply "uuid-5" (JObj [])].


(** The metering interval as [startMeterLoop] arms it. *)
Definition meter_timer : Timer Globals Callback :=
  mkTimer true (Some (METER_PERIOD_SEC * 1000)) (Invoke MeterTick).


(** A reconnection from [charging] once the socket has closed: the
    reconnect timer (8) fires, the socket opens, the boot handshake and the
    Available notification are answered, and the handle of the old metering
    interval (7) is tried. *)
Definition reconnection : list Event :=
  [Fire 8; Open;
   reply "uuid-6" (JObj [("status", JStr "Accepted"); ("interval", JNum 300)]);
   reply "uuid-7" (JObj []);
   Fire 7].

End HeadlessScenario.

(** *** Metering of the headless simulator *)

Module HeadlessMetering.
Import Headless.


Definition quiet_effect (e : Effect) : Prop :=
  match e with
  | WsSend f => is_meter_values f = false
  | _ => True
  end.

(** A task that, however it is resumed, neither arms the metering interval
    nor sends a MeterValues call, and leaves [meterTimer] null if it is. *)
Inductive idle {A : Type} : Task A -> Prop :=
| idle_Ret a : idle (Ret a)
| idle_Throw e : idle (Throw e)
| idle_Load k : (forall g, idle (k g)) -> idle (Load k)
| idle_Store f k :
    (forall g, meterTimer g = None -> meterTimer (f g) = None) -> idle k -> idle (Store f k)
| idle_Perform e k : quiet_effect e -> idle k -> idle (Perform e k)
| idle_Now k : (forall t, idle (k t)) -> idle (Now k)
| idle_Random k : (forall r, idle (k r)) -> idle (Random k)
| idle_Uuid k : (forall u, idle (k u)) -> idle (Uuid k)
| idle_SetInterval cb ms k :
    cb <> MeterTick -> (forall h, idle (k h)) -> idle (SetInterval cb ms k)
| idle_ClearInterval h k : idle k -> idle (ClearInterval h k)
| idle_SetTimeout cb ms k : cb <> MeterTick -> idle k -> idle (SetTimeout cb ms k)
| idle_AwaitReply uid action k : (forall o, idle (k o)) -> idle (AwaitReply uid action k)
| idle_AwaitDelay ms k : idle k -> idle (AwaitDelay ms k).








End HeadlessMetering.

(** *** Scenarios of the interactive simulator *)

Module InteractiveScenario.
Import Interactive.

Definition t0 : string := "2025-01-01T00:00:00.000Z".
Definition draws : nat -> Q := fun _ => 3 # 8.

Definition reply (u : string) (payload : JVal) : Event :=
  Message (CALLRESULT (JStr u) payload).

Definition request (uid action : string) (payload : JVal) : Event :=
  Message (CALL uid action payload).

Definition authorized (status : string) : JVal :=
  JObj [("idTagInfo", JObj [("status", JStr status)])].

Definition booted : State :=
  deliver_all (start t0 draws)
    [Open;
     reply "uuid-0" (JObj [("status", JStr "Accepted"); ("interval", JNum 300)]);
     reply "uuid-1" (JObj [])].

(** A remote start up to the server's answer to StartTransaction ([Fire 5]
    ends the 500 ms settle delay after the Preparing notification). *)
Definition starting : State :=
  deliver_all booted
    [request "srv-1" "RemoteStartTransaction" (JObj [("idTag", JStr "TAG-1")]);
     reply "uuid-2" (JObj []);
     Fire 5;
     reply "uuid-3" (authorized "Accepted");
     reply "uuid-4" (JObj [("transactionId", JNum 7)])].

End InteractiveScenario.

(** The claim of C4 on one call of the interactive [sendStatus]: while the
    StatusNotification frame has not been handed to the socket, the local
    status still has its old value. *)
Definition recorded_after_reported (status errorCode : string)
    (w : Interactive.State) : Prop :=
  forall w', In w' (history (Interactive.sendStatus status errorCode) w) ->
    sent w' = sent w ->
    Interactive.currentStatus (globals w') = Interactive.currentStatus (globals w).

(** ** Vocabulary of the further properties *)

(** *** Handlers that only write to the console *)

Definition is_console_line (e : Effect) : Prop :=
  match e with
  | ConsoleLog _ => True
  | _ => False
  end.

(** [w'] differs from [w] by console lines only. *)
Definition only_logged {G Cb : Type} (w w' : World G Cb) : Prop :=
  exists lines, w' = with_trace (trace w ++ lines) w /\ Forall is_console_line lines.

(** *** Vocabulary of the remote start *)

Module HeadlessRemoteStart.
Import Headless.





End HeadlessRemoteStart.

Module HeadlessFailures.
Import Headless.





End HeadlessFailures.

(** *** The shutdown handler of the headless simulator (source lines 423-439) *)

Module HeadlessShutdown.
Import Headless.



End HeadlessShutdown.

(** *** Invariants of the event loop *)

Section Safety.

Context {G Cb : Type}.

(** [Base] is a property of worlds that is to hold between macrotasks. *)
Variable Base : World G Cb -> Prop.

(** A task that keeps [Base]: its first synchronous run does (the
    registration of the awaited call included), and so does every later run,
    however it is resumed. *)
Inductive safe : Async G Cb unit -> Prop :=
| safe_intro t :
    (forall w, Base w -> Base (spawn t w)) ->
    (forall w uid action k, Base w -> snd (run t w) = AwaitingReply uid action k ->
       forall o, safe (k o)) ->
    (forall w ms k, Base w -> snd (run t w) = AwaitingDelay ms k -> safe k) ->
    safe t.

(** [Base] holds, and every suspended function keeps it when resumed. *)
Record good (w : World G Cb) : Prop := {
  good_base : Base w;
  good_pending : forall u p o, pending w !! u = Some p -> safe (p_settle p o);
  good_delays : forall h tm k, timers w !! h = Some tm -> task tm = ResolveDelay k -> safe k
}.

End Safety.

(** *** Invariants of the headless simulator *)

Module HeadlessInvariants.
Import Headless.

(** The task [ws.on('message')] starts for an inbound Call (lines 382-392). *)
Definition dispatched (uid action payload : JVal) : Task unit :=
  try_catch (handleIncoming uid action payload)
    (fun err =>
       log [JStr "Handler error:"; JStr (message err)];;
       sendCALLERROR uid "GenericError" (message err) (JObj [])).

(** The world the program is started in. *)
Definition boot_world (t0 : string) (draws : nat -> Q) : State :=
  mkWorld initial ∅ ∅ 0%nat [] 0%nat t0 draws 0%nat.

(** [v] is neither [null] nor [undefined]. *)
Definition defined (v : JVal) : Prop := v <> JNull /\ v <> JUndef.

(** The transaction record is set and cleared as a whole. *)
Definition record_consistent (g : Globals) : Prop :=
  if transactionActive g
  then defined (transactionId g) /\ truthy (lastIdTag g) = true
  else transactionId g = JNull /\ lastIdTag g = JNull.

(** A StopTransaction or MeterValues call names a transaction. *)
Definition names_transaction (frame : JVal) : Prop :=
  match frame with
  | JArr [JNum 2; _; JStr action; payload] =>
      action = "StopTransaction" \/ action = "MeterValues" ->
      defined (get_opt payload "transactionId")
  | _ => True
  end.

(** No promise of the program was rejected without a handler. *)
Definition handled (e : Effect) : Prop :=
  match e with
  | UnhandledRejection _ => False
  | _ => True
  end.

Record session_ok (w : State) : Prop := {
  so_record : record_consistent (globals w);
  so_frames : Forall names_transaction (sent w);
  so_handled : Forall handled (trace w)
}.

(** The id of a sent Call frame. *)
Definition call_id (frame : JVal) : option string :=
  match frame with
  | JArr [JNum 2; JStr u; _; _] => Some u
  | _ => None
  end.

Definition call_ids (frames : list JVal) : list string := omap call_id frames.

(** [u] is one of the identifiers [uuidv4()] has returned so far. *)
Definition issued (w : State) (u : string) : Prop :=
  exists n, (n < uuids w)%nat /\ u = uuid_of n.

(** The 20 s timer [sendCALL] arms for the call [u]. *)
Definition deadline_timer (u action : string) : Timer Globals Callback :=
  mkTimer false (Some 20000) (RequestDeadline u action).

(** The bookkeeping of timers and calls. *)
Record runtime_ok (w : State) : Prop := {
  rt_fresh : forall h tm, timers w !! h = Some tm -> (h < next_timer w)%nat;
  rt_hb : forall h tm, timers w !! h = Some tm -> task tm = Invoke HeartbeatTick ->
    hbTimer (globals w) = Some h;
  rt_meter : forall h tm, timers w !! h = Some tm -> task tm = Invoke MeterTick ->
    meterTimer (globals w) = Some h;
  rt_hb_var : forall h, hbTimer (globals w) = Some h ->
    (h < next_timer w)%nat
    /\ forall tm, timers w !! h = Some tm -> task tm = Invoke HeartbeatTick;
  rt_meter_var : forall h, meterTimer (globals w) = Some h ->
    (h < next_timer w)%nat
    /\ forall tm, timers w !! h = Some tm -> task tm = Invoke MeterTick;
  rt_ids : forall u p, pending w !! u = Some p -> issued w u;
  rt_deadline : forall u p, pending w !! u = Some p ->
    exists h, timers w !! h = Some (deadline_timer u (p_action p));
  rt_calls : forall u, u ∈ call_ids (sent w) -> issued w u;
  rt_distinct : NoDup (call_ids (sent w))
}.


(** The events of a remote start that goes through (transaction 7), from
    the start of the program. *)
Definition session_events : list Event :=
  [Open;
   Message (CALLRESULT (JStr "uuid-0")
              (JObj [("status", JStr "Accepted"); ("interval", JNum 300)]));
   Message (CALLRESULT (JStr "uuid-1") (JObj []));
   Message (CALL "srv-1" "RemoteStartTransaction" (JObj [("idTag", JStr "TAG-1")]));
   Message (CALLRESULT (JStr "uuid-2") (JObj []));
   Message (CALLRESULT (JStr "uuid-3")
              (JObj [("idTagInfo", JObj [("status", JStr "Accepted")])]));
   Message (CALLRESULT (JStr "uuid-4") (JObj [("transactionId", JNum 7)]));
   Message (CALLRESULT (JStr "uuid-5") (JObj []))].

End HeadlessInvariants.

(** * Properties *)

(** Symbolic execution: unfold the handlers on an arbitrary world, using
    the equation [H] about that world where a branch depends on it. *)
Ltac exec_with H :=
  repeat progress (cbn; unfold spawn, deadline, pending_get; cbn; rewrite ?H).

(** Bring [sent w'] of an executed world to the form [sent w ++ frames]. *)
Ltac frames :=
  unfold sent, console; cbn;
  repeat rewrite omap_app; cbn;
  repeat rewrite app_nil_r; repeat rewrite <- app_assoc; cbn.

(** ** Facts about the runtime *)

Section EngineFacts.

Context {G Cb : Type}.
Implicit Types (w : World G Cb) (e : Effect).


(** A synchronous run ends in the last world of its history. *)
Lemma history_last {A : Type} (t : Async G Cb A) w :
  last (history t w) = Some (fst (run t w)).
Proof.
  revert w. induction t; intros w; cbn [history run];
    try reflexivity;
    rewrite last_cons;
    first [ rewrite H | rewrite IHt ]; reflexivity.
Qed.

(** A synchronous run leaves [pending] alone: entries come and go only at
    suspension points and in the handlers of the event loop. *)
Lemma run_pending {A : Type} (t : Async G Cb A) w :
  pending (fst (run t w)) = pending w.
Proof.
  revert w. induction t; intros w; cbn [run]; try reflexivity;
    first [ rewrite H | rewrite IHt ]; reflexivity.
Qed.

End EngineFacts.

(** ** Inbound calls answered at once *)

Section ImmediateActions.
Import Headless.

(** [Reset], [ChangeAvailability], [UnlockConnector] and every action the
    program does not know (a string or not) are answered by one frame in the
    dispatching step itself, whatever the payload and the state. *)
Lemma immediate_actions_reply_once (w : State) (uid action payload : JVal) :
  let w' := deliver w (Message (JArr [JNum 2; uid; action; payload])) in
  is_str action "RemoteStartTransaction" = false ->
  is_str action "RemoteStopTransaction" = false ->
  exists frame,
    sent w' = sent w ++ [frame]
    /\ pending w' = pending w
    /\ frame =
       if is_str action "Reset" then CALLRESULT uid accepted
       else if is_str action "ChangeAvailability" then CALLRESULT uid accepted
       else if is_str action "UnlockConnector"
            then CALLRESULT uid (JObj [("status", JStr "Unlocked")])
       else CALLERROR uid "NotImplemented"
              ("Action " +:+ to_string action +:+ " not implemented") (JObj []).
Proof.
  cbn zeta. intros Hstart Hstop.
  unfold deliver, on_message, handleIncoming. cbn [is_num Z.eqb Pos.eqb hd].
  rewrite Hstart, Hstop.
  destruct (is_str action "Reset") eqn:H1;
    [ | destruct (is_str action "ChangeAvailability") eqn:H2;
        [ | destruct (is_str action "UnlockConnector") eqn:H3 ] ].
  all: eexists; split; [ cbn; unfold spawn; cbn; frames; reflexivity | ].
  all: split; reflexivity.
Qed.

End ImmediateActions.

(** ** C1: replies to an inbound call *)

Section ReplyCount.
Import Headless HeadlessScenario.

(** C1 (defect of the code).  The claim: every inbound Call gets exactly
    one reply frame.  The code sends more than one on this run: a
    RemoteStartTransaction whose idTag the server blocks is answered
    [Rejected]; the StatusNotification(Available) awaited next, still inside
    the [try], is never answered (timer 5 is its deadline), so the [catch]
    answers the same Call again with a GenericError CallError; when the
    StatusNotification sent by the [catch] block times out too (timer 6),
    the [.catch] of the dispatcher sends a third reply. *)
Theorem remote_start_replies_twice :
  let blocked :=
    deliver_all booted
      [request "srv-1" "RemoteStartTransaction" (JObj [("idTag", JStr "TAG-1")]);
       reply "uuid-2" (JObj []);
       reply "uuid-3" (authorized "Blocked")] in
  let w := deliver blocked (Fire 5) in
  replies_to "srv-1" (sent blocked) = [CALLRESULT (JStr "srv-1") rejected]
  /\ timers blocked !! 5%nat
     = Some (mkTimer false (Some 20000) (RequestDeadline "uuid-4" "StatusNotification"))
  /\ replies_to "srv-1" (sent w)
     = [CALLRESULT (JStr "srv-1") rejected;
        generic_error (JStr "srv-1") "Timeout waiting for StatusNotification (uuid-4)"]
  /\ timers w !! 6%nat
     = Some (mkTimer false (Some 20000) (RequestDeadline "uuid-5" "StatusNotification"))
  /\ replies_to "srv-1" (sent (deliver w (Fire 6)))
     = [CALLRESULT (JStr "srv-1") rejected;
        generic_error (JStr "srv-1") "Timeout waiting for StatusNotification (uuid-4)";
        generic_error (JStr "srv-1") "Timeout waiting for StatusNotification (uuid-5)"].
Proof.
  cbn zeta. repeat apply conj; vm_compute; reflexivity.
Qed.

End ReplyCount.

(** ** C2: starting a transaction while one is active *)

Section SingleTransaction.

(** The menu path of the interactive simulator refuses to start while a
    transaction is active: the RFID swipe (command 2) sends nothing and
    changes nothing. *)
Lemma rfid_swipe_guarded (w : Interactive.State) :
  Interactive.transactionActive (globals w) = true ->
  let w' := Interactive.deliver w (Interactive.Stdin "2") in
  sent w' = sent w /\ globals w' = globals w /\ pending w' = pending w.
Proof.
  intros Hactive. cbn zeta.
  unfold Interactive.deliver, Interactive.handleMenuInput. cbn [String.eqb Ascii.eqb Bool.eqb].
  unfold spawn, Interactive.simulateRFIDSwipe. cbn. rewrite Hactive. cbn.
  unfold Interactive.showMenu. cbn.
  destruct (negb (Interactive.connected (globals w)) || negb (Interactive.bootAccepted (globals w)));
    cbn; (split; [ frames; reflexivity | split; reflexivity ]).
Qed.

Import Headless HeadlessScenario.

(** C2 (defect of the code).  The claim: startTransaction is never invoked
    while a transaction is active.  The remote-start handler does not look
    at [transactionActive]: with transaction 7 running (one metering tick
    done), a second RemoteStartTransaction goes through Preparing and
    Authorize and then issues StartTransaction; the server's answer
    overwrites the record of transaction 7 (id, meter start, idTag), for
    which no StopTransaction was ever sent. *)
Theorem remote_start_overwrites_transaction :
  let before :=
    deliver_all charging
      [Fire 7;
       request "srv-2" "RemoteStartTransaction" (JObj [("idTag", JStr "TAG-2")]);
       reply "uuid-7" (JObj [])] in
  let w := deliver before (reply "uuid-8" (authorized "Accepted")) in
  let after :=
    deliver_all w [reply "uuid-9" (JObj [("transactionId", JNum 8)]);
                   reply "uuid-10" (JObj [])] in
  (transactionActive (globals before) = true
   /\ transactionId (globals before) = JNum 7
   /\ meterStartWh (globals before) = 10000)
  /\ sent w = sent before ++
       [CALL "uuid-9" "StartTransaction"
          (JObj [("connectorId", JNum 1); ("idTag", JStr "TAG-2");
                 ("meterStart", JNum 10150); ("timestamp", JStr t0)])]
  /\ (transactionActive (globals after) = true
      /\ transactionId (globals after) = JNum 8
      /\ meterStartWh (globals after) = 10150
      /\ lastIdTag (globals after) = JStr "TAG-2")
  /\ calls_about 7 (sent after) = ["MeterValues"]
  /\ replies_to "srv-2" (sent after) = [CALLRESULT (JStr "srv-2") accepted].
Proof.
  cbn zeta. repeat apply conj; vm_compute; reflexivity.
Qed.

End SingleTransaction.

(** ** C3: the heartbeat interval *)

Section HeartbeatInterval.
Import Headless HeadlessScenario.




End HeartbeatInterval.

(** ** C4: reporting a connector status *)

Section StatusOrder.

(** The interactive [sendStatus] passes through the world in which only
    [currentStatus] has changed. *)
Lemma status_world_in_history (w : Interactive.State) (status errorCode : string) :
  In (with_globals (Interactive.set_currentStatus status (globals w)) w)
     (history (Interactive.sendStatus status errorCode) w).
Proof. cbn. right. left. reflexivity. Qed.

Lemma recorded_first_at (w : Interactive.State) (status errorCode : string) :
  Interactive.currentStatus (globals w) <> status ->
  ~ recorded_after_reported status errorCode w.
Proof.
  intros Hne H.
  specialize (H _ (status_world_in_history w status errorCode)).
  apply Hne. symmetry. apply H. reflexivity.
Qed.

(** C4 (as stated, refuted).  In the interactive simulator, started and
    still [Available], [sendStatus('Preparing')] first passes through a world
    where [currentStatus] is already [Preparing] and nothing has been sent. *)
Lemma status_recorded_first :
  ~ recorded_after_reported "Preparing" "NoError"
      (Interactive.start InteractiveScenario.t0 InteractiveScenario.draws).
Proof.
  apply recorded_first_at.
  assert (Hs : Interactive.currentStatus
                 (globals (Interactive.start InteractiveScenario.t0 InteractiveScenario.draws))
               = "Available") by (vm_compute; reflexivity).
  rewrite Hs. discriminate.
Qed.

(** C4 (amended).  The interactive [sendStatus] assigns [currentStatus]
    first and issues the StatusNotification call next, in the same
    synchronous run: in every world of the run other than the first the
    local status is the new one, so it is the new one wherever the frame has
    been sent.  The headless [sendStatus] keeps no local status: it only
    issues the call and changes no variable. *)
Theorem sendStatus_order (status errorCode : string) :
  (forall w : Interactive.State,
     let t := Interactive.sendStatus status errorCode in
     (forall w', In w' (history t w) ->
        w' = w \/ Interactive.currentStatus (globals w') = status)
     /\ (forall w', In w' (history t w) -> sent w' <> sent w ->
           Interactive.currentStatus (globals w') = status)
     /\ sent (fst (run t w))
        = sent w ++ [CALL (uuid_of (uuids w)) "StatusNotification"
                       (status_payload status errorCode (clock w))]
     /\ Interactive.currentStatus (globals (fst (run t w))) = status)
  /\ (forall w : Headless.State,
        let t := Headless.sendStatus status errorCode in
        (forall w', In w' (history t w) -> globals w' = globals w)
        /\ sent (fst (run t w))
           = sent w ++ [CALL (uuid_of (uuids w)) "StatusNotification"
                          (status_payload status errorCode (clock w))]).
Proof.
  split; intros w; cbn zeta.
  - assert (Hall : forall w', In w' (history (Interactive.sendStatus status errorCode) w) ->
       w' = w \/ Interactive.currentStatus (globals w') = status).
    { cbn. intros w' Hin.
      repeat (destruct Hin as [<- | Hin];
              [ first [ left; reflexivity | right; reflexivity ] | ]).
      destruct Hin. }
    split; [exact Hall|]. split.
    + intros w' Hin Hne. destruct (Hall w' Hin) as [-> | Hs]; [ congruence | exact Hs ].
    + split; [ frames; reflexivity | reflexivity ].
  - split.
    + cbn. intros w' Hin.
      repeat (destruct Hin as [<- | Hin]; [ reflexivity | ]). destruct Hin.
    + frames. reflexivity.
Qed.

(** The theorem at the interactive simulator just started, for the world
    in which only [currentStatus] has changed. *)
Lemma sendStatus_order_witness :
  let w := Interactive.start InteractiveScenario.t0 InteractiveScenario.draws in
  let w' := with_globals (Interactive.set_currentStatus "Preparing" (globals w)) w in
  In w' (history (Interactive.sendStatus "Preparing" "NoError") w)
  /\ (w' = w \/ Interactive.currentStatus (globals w') = "Preparing").
Proof.
  cbn zeta.
  pose proof (status_world_in_history
                (Interactive.start InteractiveScenario.t0 InteractiveScenario.draws)
                "Preparing" "NoError") as Hin.
  split; [ exact Hin | ].
  destruct (sendStatus_order "Preparing" "NoError") as [H _].
  destruct (H (Interactive.start InteractiveScenario.t0 InteractiveScenario.draws))
    as [Hall _].
  exact (Hall _ Hin).
Defined.

End StatusOrder.

(** ** C5: RemoteStopTransaction *)

Section RemoteStop.
Import Headless HeadlessScenario.




End RemoteStop.

(** ** C6: metering between start and stop *)

Section MeteringWindow.
Import Headless HeadlessScenario.

(** What the code does guarantee: [stopTransaction] cancels the metering
    interval before it hands the StopTransaction frame to the socket. *)
Lemma meter_loop_cancelled_first (w : State) (reason : string) :
  transactionActive (globals w) = true ->
  forall w', In w' (history (stopTransaction reason) w) ->
    sent w' <> sent w ->
    meterTimer (globals w') = None
    /\ forall h, meterTimer (globals w) = Some h -> timers w' !! h = None.
Proof.
  intros Hactive w' Hin Hne.
  unfold stopTransaction in Hin. cbn in Hin. rewrite Hactive in Hin. cbn in Hin.
  destruct (meterTimer (globals w)) as [mt|] eqn:Hmt; cbn in Hin.
  all: repeat (destruct Hin as [<- | Hin];
               [ first [ exfalso; apply Hne; frames; reflexivity
                       | split; [ reflexivity | intros h [= <-]; cbn; apply lookup_delete_eq ]
                       | split; [ assumption | intros h Hh; discriminate Hh ] ] | ]).
  all: destruct Hin.
Qed.

(** A metering tick sends a MeterValues call only while
    [transactionActive] is true: otherwise it does nothing at all. *)
Lemma meter_tick_guarded (w : State) :
  transactionActive (globals w) = false -> spawn meter_tick w = w.
Proof.
  intros Hidle. unfold spawn, meter_tick. cbn. rewrite Hidle. reflexivity.
Qed.

(** C6 (defect of the code).  The claim: no MeterValues call is sent once
    StopTransaction has been initiated.  On this run a RemoteStopTransaction
    arrives while [startTransaction] still waits for the acknowledgement of
    StatusNotification(Charging): the StopTransaction call for transaction 7
    is issued (there is no metering interval to cancel yet); then the
    acknowledgement arrives and [startTransaction] arms the metering
    interval (timer 8); the StopTransaction call times out (timer 7), so the
    transaction stays active; the next tick sends MeterValues for
    transaction 7, after its StopTransaction. *)
Theorem metering_after_stop_initiated :
  let stopping := deliver starting (remote_stop (JStr "srv-2") (JObj [])) in
  let armed := deliver stopping (reply "uuid-5" (JObj [])) in
  let w := deliver_all armed [Fire 7; Fire 8] in
  (transactionActive (globals starting) = true /\ meterTimer (globals starting) = None)
  /\ calls_about 7 (sent stopping) = ["StopTransaction"]
  /\ (timers armed !! 7%nat
      = Some (mkTimer false (Some 20000) (RequestDeadline "uuid-6" "StopTransaction"))
      /\ timers armed !! 8%nat
         = Some (mkTimer true (Some 30000) (Invoke MeterTick)))
  /\ replies_to "srv-2" (sent w)
     = [generic_error (JStr "srv-2") "Timeout waiting for StopTransaction (uuid-6)"]
  /\ (transactionActive (globals w) = true /\ transactionId (globals w) = JNum 7)
  /\ calls_about 7 (sent w) = ["StopTransaction"; "MeterValues"]
  /\ omap call_action (drop 6 (sent w)) = ["StopTransaction"; "MeterValues"].
Proof.
  cbn zeta. repeat apply conj; vm_compute; reflexivity.
Qed.

(** The same interleaving in the interactive simulator, where the metering
    period (10 s) is shorter than the deadline of a call: the tick (timer
    10) falls between the StopTransaction call and its answer, the stop
    then completes, and the metering interval is still armed afterwards. *)
Lemma interactive_metering_after_stop :
  let stopping :=
    Interactive.deliver InteractiveScenario.starting
      (InteractiveScenario.request "srv-2" "RemoteStopTransaction" (JObj [])) in
  let armed := Interactive.deliver stopping (InteractiveScenario.reply "uuid-5" (JObj [])) in
  let w :=
    Interactive.deliver_all armed
      [Interactive.Fire 10;
       InteractiveScenario.reply "uuid-6" (JObj []);
       InteractiveScenario.reply "uuid-8" (JObj [])] in
  calls_about 7 (sent stopping) = ["StopTransaction"]
  /\ timers armed !! 10%nat
     = Some (mkTimer true (Some 10000) (Invoke Interactive.MeterTick))
  /\ calls_about 7 (sent w) = ["StopTransaction"; "MeterValues"]
  /\ replies_to "srv-2" (sent w) = [CALLRESULT (JStr "srv-2") accepted]
  /\ Interactive.transactionActive (globals w) = false
  /\ Interactive.meterTimer (globals w) = Some 10%nat
  /\ timers w !! 10%nat = Some (mkTimer true (Some 10000) (Invoke Interactive.MeterTick)).
Proof.
  cbn zeta. repeat apply conj; vm_compute; reflexivity.
Qed.

End MeteringWindow.

(** ** C7: the deadline of an outbound call *)

Section Deadlines.
Import Headless HeadlessScenario.

(** C7.  [caller] is any function that awaits [sendCALL(action, payload)],
    goes on with [k] on the result and handles a failure with [h]; [w] is
    the world it is started in and [w2] any later world in which the 20 s
    timer [d] of the call is still armed.  If the call is still pending when
    [d] fires, the entry is removed from [pending] and the caller is
    completed with the error "Timeout waiting for <action> (<id>)".  If the
    call was answered in between, the entry is removed at the answer, and
    when [d] fires nothing happens beyond the timer going away; a reply
    arriving after the expiry is dropped. *)
Theorem request_deadline (action : string) (payload : JVal)
    (k : JVal -> Task unit) (h : JsError -> Task unit) (w w2 : State) :
  let caller := try_catch (sendCALL action payload ≫= k) h in
  let u := uuid_of (uuids w) in
  let d := next_timer w in
  let w1 := spawn caller w in
  let expired := mkError ("Timeout waiting for " +:+ action +:+ " (" +:+ u +:+ ")") in
  let fired := with_timers (delete d (timers w2)) (next_timer w2) w2 in
  sent w1 = sent w ++ [CALL u action payload]
  /\ (exists p, pending w1 !! u = Some p /\ p_action p = action)
  /\ timers w1 !! d = Some (mkTimer false (Some 20000) (RequestDeadline u action))
  /\ (timers w2 !! d = timers w1 !! d ->
      (pending w2 !! u = pending w1 !! u ->
         deliver w2 (Fire d)
         = spawn (h expired) (with_pending (delete u (pending w2)) fired)
         /\ forall res,
              deliver w2 (reply u res)
              = spawn (try_catch (k res) h)
                  (spawn (log [JStr ("<= CALLRESULT for " +:+ action); res])
                     (with_pending (delete u (pending w2)) w2)))
      /\ (pending w2 !! u = None ->
            deliver w2 (Fire d) = fired
            /\ forall res, deliver fired (reply u res) = fired)).
Proof.
  cbn zeta. split; [ frames; reflexivity | ].
  split. { eexists. split; [ cbn; apply lookup_insert_eq | reflexivity ]. }
  assert (Hd : timers (spawn (try_catch (sendCALL action payload ≫= k) h) w) !! next_timer w
               = Some (mkTimer false (Some 20000)
                         (RequestDeadline (uuid_of (uuids w)) action))).
  { cbn. apply lookup_insert_eq. }
  split; [ exact Hd | ].
  intros Harmed. rewrite Hd in Harmed.
  split.
  - intros Hp. split.
    + cbn [deliver]. unfold fire. rewrite Harmed. cbn [repeats task].
      unfold deadline. cbn [pending with_timers].
      rewrite Hp. cbn. rewrite lookup_insert_eq. cbn. reflexivity.
    + intros res. cbn. unfold pending_get. rewrite Hp. cbn.
      rewrite lookup_insert_eq. cbn. reflexivity.
  - intros Hp. split.
    + cbn [deliver]. unfold fire. rewrite Harmed. cbn [repeats task].
      unfold deadline. cbn [pending with_timers]. rewrite Hp. reflexivity.
    + intros res. cbn. unfold pending_get. cbn. rewrite Hp. reflexivity.
Qed.

(** The theorem at a heartbeat sent from [booted] and never answered:
    the error of the deadline reaches the [.catch] of the heartbeat tick. *)
Lemma request_deadline_witness :
  let k := fun _ : JVal => mret () in
  let h := fun err : JsError => log [JStr "Heartbeat error:"; JStr (message err)] in
  let w := booted in
  let u := uuid_of (uuids w) in
  let d := next_timer w in
  let w1 := spawn (try_catch (sendCALL "Heartbeat" (JObj []) ≫= k) h) w in
  timers w1 !! d = timers w1 !! d
  /\ pending w1 !! u = pending w1 !! u
  /\ deliver w1 (Fire d)
     = spawn (h (mkError ("Timeout waiting for " +:+ "Heartbeat" +:+ " (" +:+ u +:+ ")")))
         (with_pending (delete u (pending w1))
            (with_timers (delete d (timers w1)) (next_timer w1) w1)).
Proof.
  cbn zeta. split; [ reflexivity | ]. split; [ reflexivity | ].
  destruct (request_deadline "Heartbeat" (JObj []) (fun _ : JVal => mret ())
              (fun err : JsError => log [JStr "Heartbeat error:"; JStr (message err)])
              booted
              (spawn (try_catch (sendCALL "Heartbeat" (JObj []) ≫= (fun _ : JVal => mret ()))
                        (fun err : JsError =>
                           log [JStr "Heartbeat error:"; JStr (message err)])) booted))
    as (_ & _ & _ & H).
  destruct (H eq_refl) as [H1 _]. destruct (H1 eq_refl) as [H2 _]. exact H2.
Defined.

End Deadlines.

(** ** C8: stopping with no transaction *)

Section StopIdle.
Import Headless HeadlessScenario.

(** C8.  With no transaction active, [stopTransaction] returns (with
    [undefined], no error, no suspension); it sends no frame and leaves the
    variables, the pending calls and the timers as they are.  Its one
    effect is the console line. *)
Theorem stopTransaction_idle (w : State) (reason : string) :
  transactionActive (globals w) = false ->
  let w' := fst (run (stopTransaction reason) w) in
  snd (run (stopTransaction reason) w) = Returned JUndef
  /\ sent w' = sent w
  /\ globals w' = globals w
  /\ pending w' = pending w
  /\ timers w' = timers w
  /\ trace w' = trace w ++ [ConsoleLog [JStr (clock w); JStr "-";
                                         JStr "No active transaction to stop"]].
Proof.
  intros Hidle. cbn. rewrite Hidle. cbn.
  repeat apply conj; try reflexivity. frames. reflexivity.
Qed.

(** The interactive [stopTransaction] behaves the same way. *)
Lemma interactive_stopTransaction_idle (w : Interactive.State) (reason : string) :
  Interactive.transactionActive (globals w) = false ->
  let w' := fst (run (Interactive.stopTransaction reason) w) in
  snd (run (Interactive.stopTransaction reason) w) = Returned JUndef
  /\ sent w' = sent w
  /\ globals w' = globals w
  /\ pending w' = pending w
  /\ timers w' = timers w.
Proof.
  intros Hidle. cbn. rewrite Hidle. cbn.
  repeat apply conj; try reflexivity. frames. reflexivity.
Qed.

Lemma stopTransaction_idle_witness :
  transactionActive (globals booted) = false
  /\ snd (run (stopTransaction "Local") booted) = Returned JUndef
  /\ sent (fst (run (stopTransaction "Local") booted)) = sent booted
  /\ globals (fst (run (stopTransaction "Local") booted)) = globals booted.
Proof.
  assert (Hidle : transactionActive (globals booted) = false) by (vm_compute; reflexivity).
  split; [ exact Hidle | ].
  destruct (stopTransaction_idle booted "Local" Hidle) as (H1 & H2 & H3 & _).
  repeat apply conj; assumption.
Defined.

End StopIdle.

(** ** C9: session energy *)

Section SessionEnergy.
Import Headless HeadlessScenario.






End SessionEnergy.

(** ** C10: the socket closes *)

Section Disconnect.
Import Headless HeadlessScenario HeadlessMetering.





(** Walk a handler's tree: every operation is checked, every branch on a
    value the handler reads is taken both ways. *)
Ltac idle_tac :=
  repeat (cbn; unfold get, clearTimer; cbn;
          match goal with
          | |- True => exact I
          | |- forall _, _ => intro
          | |- _ <> _ => discriminate
          | |- meterTimer _ = None => assumption
          | |- _ = _ => reflexivity
          | |- idle ?t =>
              match t with
              | context [match ?x with _ => _ end] => destruct x
              | context [if ?b then _ else _] => destruct b
              | _ => constructor
              end
          end).





Lemma idle_stopTransaction reason : idle (stopTransaction reason).
Proof. unfold stopTransaction. idle_tac. Qed.

Lemma idle_handleIncoming uid action payload :
  is_str action "RemoteStartTransaction" = false ->
  idle (handleIncoming uid action payload).
Proof. intros H. unfold handleIncoming. cbn. rewrite H. idle_tac. Qed.










(** The same run evaluated: after the reconnection the boot is accepted
    again, transaction 7 is still the active one, and no metering interval
    exists. *)
Lemma transaction_survives_reconnect :
  let w := deliver_all (deliver charging (Close (JNum 1006) (JStr ""))) reconnection in
  (connected (globals w) = true /\ bootAccepted (globals w) = true)
  /\ (transactionActive (globals w) = true /\ transactionId (globals w) = JNum 7)
  /\ meterTimer (globals w) = None
  /\ omap call_action (drop (length (sent charging)) (sent w))
     = ["BootNotification"; "StatusNotification"].
Proof.
  cbn zeta. repeat apply conj; vm_compute; reflexivity.
Qed.
End Disconnect.

(** * Further properties of the code *)

(** ** Handlers that only write to the console *)

Section OnlyLogged.
Context {G Cb : Type}.
Implicit Types (w : World G Cb).



Lemma only_logged_log w (args : list JVal) :
  only_logged w (spawn (log args) w).
Proof.
  exists [ConsoleLog (JStr (clock w) :: JStr "-" :: args)].
  split; [ reflexivity | repeat constructor ].
Qed.

End OnlyLogged.


(** ** The boot handshake and the heartbeat *)

Section BootRefused.
Import Headless HeadlessScenario HeadlessFailures.



End BootRefused.

Section HeartbeatTick.
Import Headless HeadlessScenario.



End HeartbeatTick.

(** ** Inbound frames *)

Section InboundFrames.
Import Headless HeadlessScenario.

(** X3.  Inbound frames that are not acted upon.  A message that is not an
    array of at least three elements, a frame that does not parse, and a
    frame whose type is none of 2, 3, 4 only write a console line.  A
    CallResult or CallError whose id is not that of a pending call (an id
    that is not a string included) changes nothing at all, not even the
    console. *)
Theorem inbound_frames_screened (w : State) :
  (forall msg,
     (forall type uid third rest, msg <> JArr (type :: uid :: third :: rest)) ->
     only_logged w (deliver w (Message msg)))
  /\ (forall data, only_logged w (deliver w (Garbage data)))
  /\ (forall type uid third rest,
        is_num type 2 = false -> is_num type 3 = false -> is_num type 4 = false ->
        only_logged w (deliver w (Message (JArr (type :: uid :: third :: rest)))))
  /\ (forall type uid third rest,
        is_num type 3 || is_num type 4 = true ->
        pending_get uid w = None ->
        deliver w (Message (JArr (type :: uid :: third :: rest))) = w).
Proof.
  repeat apply conj.
  - intros msg Hshape. cbn [deliver].
    destruct msg as [ | | | | | items | ]; try apply only_logged_log.
    destruct items as [ | type [ | uid [ | third rest ] ] ]; try apply only_logged_log.
    exfalso. exact (Hshape _ _ _ _ eq_refl).
  - intros data. apply only_logged_log.
  - intros type uid third rest H2 H3 H4. cbn [deliver on_message].
    rewrite H2, H3, H4. apply only_logged_log.
  - intros type uid third rest Hty Hp. cbn [deliver on_message].
    destruct (is_num type 3); [ rewrite Hp; reflexivity | ].
    cbn in Hty. rewrite Hty, Hp. reflexivity.
Qed.

(** The theorem at [booted], for the message [{}]. *)
Lemma inbound_frames_screened_witness :
  (forall type uid third rest, JObj [] <> JArr (type :: uid :: third :: rest))
  /\ only_logged booted (deliver booted (Message (JObj []))).
Proof.
  assert (Hshape : forall type uid third rest,
            JObj [] <> JArr (type :: uid :: third :: rest)) by discriminate.
  split; [ exact Hshape | ].
  destruct (inbound_frames_screened booted) as [H _].
  exact (H (JObj []) Hshape).
Defined.

End InboundFrames.

Section CallErrors.
Import Headless HeadlessScenario.



End CallErrors.

(** ** Reset and reconnection *)

Section ResetAndReconnect.
Import Headless HeadlessScenario.


(** The close handler by cases on the two interval handles. *)
Ltac close_cases w :=
  cbn; unfold spawn; cbn;
  destruct (hbTimer (globals w)); cbn;
  destruct (meterTimer (globals w)); cbn.


(** X6.  Reconnection.  The close handler arms one timer of 5000 ms and
    leaves alone every timer other than the two intervals it cancels (so
    the deadlines of the pending calls keep running); it writes to the
    console only.  When the timer fires, [connect] opens a new socket to
    [ws://localhost:8090/PS001] and touches neither the variables nor the
    pending calls. *)
Theorem close_schedules_reconnect (w : State) (code reason : JVal) :
  let w1 := deliver w (Close code reason) in
  let d := next_timer w in
  timers w1 !! d = Some (mkTimer false (Some 5000) (Invoke Reconnect))
  /\ (forall h, h <> d -> hbTimer (globals w) <> Some h -> meterTimer (globals w) <> Some h ->
        timers w1 !! h = timers w !! h)
  /\ (forall e, In e (drop (length (trace w)) (trace w1)) -> exists line, e = ConsoleLog line)
  /\ forall w2, timers w2 !! d = timers w1 !! d ->
       let w3 := deliver w2 (Fire d) in
       last (trace w3) = Some (NewWebSocket "ws://localhost:8090/PS001")
       /\ sent w3 = sent w2
       /\ globals w3 = globals w2
       /\ pending w3 = pending w2
       /\ timers w3 = delete d (timers w2).
Proof.
  cbn zeta.
  assert (Hd : timers (deliver w (Close code reason)) !! next_timer w
               = Some (mkTimer false (Some 5000) (Invoke Reconnect))).
  { close_cases w; apply lookup_insert_eq. }
  split; [ exact Hd | ]. split; [ | split ].
  - intros h Hd' Hhb Hmt. close_cases w;
      rewrite lookup_insert_ne by congruence;
      rewrite ?lookup_delete_ne by congruence; reflexivity.
  - intros e. close_cases w;
      repeat rewrite <- app_assoc; rewrite drop_app_length; cbn;
      intros Hin; repeat (destruct Hin as [<- | Hin]; [ eexists; reflexivity | ]);
      destruct Hin.
  - intros w2 Harmed. rewrite Hd in Harmed.
    cbn [deliver]. unfold fire. rewrite Harmed. cbn.
    repeat apply conj; try reflexivity.
    + repeat rewrite app_assoc. apply last_snoc.
    + frames. reflexivity.
Qed.

(** The theorem at [charging]: the reconnect timer is timer 8. *)
Lemma close_schedules_reconnect_witness :
  let w1 := deliver charging (Close (JNum 1006) (JStr "")) in
  let d := next_timer charging in
  timers w1 !! d = timers w1 !! d
  /\ last (trace (deliver w1 (Fire d))) = Some (NewWebSocket "ws://localhost:8090/PS001").
Proof.
  cbn zeta. split; [ reflexivity | ].
  destruct (close_schedules_reconnect charging (JNum 1006) (JStr "")) as (_ & _ & _ & H).
  destruct (H _ eq_refl) as [H1 _]. exact H1.
Defined.

End ResetAndReconnect.

(** ** The remote start *)

Section RemoteStart.
Import Headless HeadlessScenario HeadlessRemoteStart.



End RemoteStart.

Section RemoteStartFailures.
Import Headless HeadlessScenario HeadlessRemoteStart HeadlessFailures.





End RemoteStartFailures.

(** ** Stops that fail, and the shutdown *)

Section FailedStop.
Import Headless HeadlessScenario HeadlessFailures.



End FailedStop.

Section Shutdown.
Import Headless HeadlessScenario HeadlessShutdown HeadlessFailures.



End Shutdown.

(** ** The menu of the interactive simulator *)

Section InteractiveMenu.
Import Interactive.




End InteractiveMenu.

Section InteractiveStatus.
Import Interactive InteractiveScenario.



End InteractiveStatus.

Section InteractiveRemoteStart.
Import Interactive InteractiveScenario.



End InteractiveRemoteStart.

Section UncaughtFailures.
Import Interactive InteractiveScenario.

(** X20.  A failure the interactive simulator does not catch.  An RFID
    swipe (command 2) on a connector that is not [Preparing] first reports
    Preparing, outside its [try] block: if that call times out the
    rejection has no handler, the swipe ends there (no Authorize is sent)
    and the local status stays [Preparing]. *)
Theorem rfid_swipe_failure_uncaught (w : State) :
  transactionActive (globals w) = false ->
  currentStatus (globals w) <> "Preparing" ->
  let u := uuid_of (uuids w) in
  let w1 := deliver w (Stdin "2") in
  sent w1 = sent w ++ [CALL u "StatusNotification"
                         (status_payload "Preparing" "NoError" (clock w))]
  /\ currentStatus (globals w1) = "Preparing"
  /\ forall w2, pending w2 !! u = pending w1 !! u ->
     let w3 := deadline u "StatusNotification" w2 in
     trace w3 = trace w2 ++
       [UnhandledRejection
          (mkError ("Timeout waiting for StatusNotification (" +:+ u +:+ ")"))]
     /\ globals w3 = globals w2
     /\ timers w3 = timers w2
     /\ pending w3 = delete u (pending w2).
Proof.
  intros Hidle Hst. apply String.eqb_neq in Hst. cbn zeta.
  eassert (Hp1 : pending (deliver w (Stdin "2")) !! uuid_of (uuids w) = Some _).
  { exec_with Hidle. rewrite Hst. exec_with Hidle. apply lookup_insert_eq. }
  split; [ exec_with Hidle; rewrite Hst; exec_with Hidle; frames; reflexivity | ].
  split; [ exec_with Hidle; rewrite Hst; exec_with Hidle; reflexivity | ].
  intros w2 Hp. rewrite Hp1 in Hp. clear Hp1.
  exec_with Hp. repeat apply conj; reflexivity.
Qed.

(** The theorem at the interactive [booted]. *)
Lemma rfid_swipe_failure_uncaught_witness :
  let w := booted in
  let u := uuid_of (uuids w) in
  let w1 := deliver w (Stdin "2") in
  transactionActive (globals w) = false
  /\ currentStatus (globals w) <> "Preparing"
  /\ pending w1 !! u = pending w1 !! u
  /\ trace (deadline u "StatusNotification" w1)
     = trace w1 ++
         [UnhandledRejection
            (mkError ("Timeout waiting for StatusNotification (" +:+ u +:+ ")"))].
Proof.
  cbn zeta.
  assert (Hidle : transactionActive (globals booted) = false) by (vm_compute; reflexivity).
  assert (Hst : currentStatus (globals booted) <> "Preparing").
  { assert (E : currentStatus (globals booted) = "Available") by (vm_compute; reflexivity).
    rewrite E. discriminate. }
  split; [ exact Hidle | ]. split; [ exact Hst | ]. split; [ reflexivity | ].
  destruct (rfid_swipe_failure_uncaught booted Hidle Hst) as (_ & _ & H).
  destruct (H _ eq_refl) as [H1 _]. exact H1.
Defined.

End UncaughtFailures.

(** ** Invariants: the generic argument *)

Section SafetyFacts.

Context {G Cb : Type}.
Variable Base : World G Cb -> Prop.

(** A synchronous run adds no suspended delay to the timer table. *)
Lemma run_delays {A : Type} (t : Async G Cb A) (w : World G Cb) h tm k :
  timers (fst (run t w)) !! h = Some tm -> task tm = ResolveDelay k ->
  timers w !! h = Some tm.
Proof.
  revert w.
  induction t as [ a | e | c IH | f t IH | e t IH | c IH | c IH | c IH | cb ms c IH
                 | x t IH | cb ms t IH | uid action c IH | ms t IH ];
    intros w; cbn [run]; intros Hl Hk;
    try exact Hl;
    try (specialize (IH _ _ Hl Hk); exact IH);
    try (specialize (IH _ Hl Hk); exact IH).
  - specialize (IH _ _ Hl Hk). cbn in IH.
    apply lookup_insert_Some in IH as [[_ <-] | [_ IH]]; [ discriminate Hk | exact IH ].
  - specialize (IH _ Hl Hk). cbn in IH.
    apply lookup_delete_Some in IH as [_ IH]. exact IH.
  - specialize (IH _ Hl Hk). cbn in IH.
    apply lookup_insert_Some in IH as [[_ <-] | [_ IH]]; [ discriminate Hk | exact IH ].
Qed.

Lemma good_spawn (t : Async G Cb unit) (w : World G Cb) :
  safe Base t -> good Base w -> good Base (spawn t w).
Proof.
  intros Ht [Hb Hp Hd]. inversion Ht as [t' Hbase Hreply Hdelay]; subst t'.
  split; [ apply Hbase; exact Hb | | ].
  - intros u p o. unfold spawn.
    pose proof (run_pending t w) as Hrp.
    destruct (run t w) as [w' c] eqn:Hrun. cbn in Hrp.
    destruct c as [ a | e | uid action k | ms k ]; cbn; rewrite ?Hrp; eauto.
    intros Hl. apply lookup_insert_Some in Hl as [[_ <-] | [_ Hl]]; [ | eauto ].
    cbn. eapply Hreply; [ exact Hb | rewrite Hrun; reflexivity ].
  - intros h tm k. unfold spawn.
    pose proof (fun h tm k => run_delays t w h tm k) as Hrd.
    destruct (run t w) as [w' c] eqn:Hrun. cbn in Hrd.
    destruct c as [ a | e | uid action k' | ms k' ]; cbn.
    + intros Hl Hk. eapply Hd; [ eapply Hrd; eassumption | exact Hk ].
    + intros Hl Hk. eapply Hd; [ eapply Hrd; eassumption | exact Hk ].
    + intros Hl Hk. apply lookup_insert_Some in Hl as [[_ <-] | [_ Hl]];
        [ discriminate Hk | ].
      eapply Hd; [ eapply Hrd; eassumption | exact Hk ].
    + intros Hl Hk. apply lookup_insert_Some in Hl as [[_ <-] | [_ Hl]].
      * cbn in Hk. injection Hk as <-.
        eapply Hdelay; [ exact Hb | rewrite Hrun; reflexivity ].
      * eapply Hd; [ eapply Hrd; eassumption | exact Hk ].
Qed.

Hypothesis Base_forget :
  forall w u, Base w -> Base (with_pending (delete u (pending w)) w).
Hypothesis Base_expire :
  forall w h tm, timers w !! h = Some tm -> repeats tm = false ->
    (forall uid action, task tm = RequestDeadline uid action -> pending w !! uid = None) ->
    Base w -> Base (with_timers (delete h (timers w)) (next_timer w) w).
Hypothesis Base_timeout :
  forall w h tm uid action, timers w !! h = Some tm -> repeats tm = false ->
    task tm = RequestDeadline uid action ->
    Base w ->
    Base (with_pending (delete uid (pending w))
            (with_timers (delete h (timers w)) (next_timer w) w)).

Lemma good_forget (w : World G Cb) u :
  good Base w -> good Base (with_pending (delete u (pending w)) w).
Proof.
  intros [Hb Hp Hd]. split; [ apply Base_forget; exact Hb | | exact Hd ].
  intros u' p o Hl. cbn in Hl. apply lookup_delete_Some in Hl as [_ Hl]. eauto.
Qed.

Lemma good_expire (w : World G Cb) h tm :
  timers w !! h = Some tm -> repeats tm = false ->
  (forall uid action, task tm = RequestDeadline uid action -> pending w !! uid = None) ->
  good Base w -> good Base (with_timers (delete h (timers w)) (next_timer w) w).
Proof.
  intros Hl Hr Hnone [Hb Hp Hd].
  split; [ eapply Base_expire; eassumption | exact Hp | ].
  intros h' tm' k Hl' Hk. cbn in Hl'. apply lookup_delete_Some in Hl' as [_ Hl']. eauto.
Qed.

Lemma good_timeout (w : World G Cb) h tm uid action :
  timers w !! h = Some tm -> repeats tm = false ->
  task tm = RequestDeadline uid action ->
  good Base w ->
  good Base (with_pending (delete uid (pending w))
               (with_timers (delete h (timers w)) (next_timer w) w)).
Proof.
  intros Hl Hr Htask [Hb Hp Hd]. split; [ eapply Base_timeout; eassumption | | ].
  - intros u p o Hl'. cbn in Hl'. apply lookup_delete_Some in Hl' as [_ Hl']. eauto.
  - intros h' tm' k Hl' Hk. cbn in Hl'. apply lookup_delete_Some in Hl' as [_ Hl']. eauto.
Qed.

Lemma good_settle (w : World G Cb) u p o :
  pending w !! u = Some p -> good Base w ->
  good Base (spawn (p_settle p o) (with_pending (delete u (pending w)) w)).
Proof.
  intros Hl Hg. apply good_spawn; [ | apply good_forget; exact Hg ].
  destruct Hg as [_ Hp _]. eauto.
Qed.

Lemma good_deadline (w : World G Cb) uid action :
  good Base w -> good Base (deadline uid action w).
Proof.
  intros Hg. unfold deadline. destruct (pending w !! uid) as [p|] eqn:Hl; [ | exact Hg ].
  apply good_settle; assumption.
Qed.

Lemma good_fire (body : Cb -> Async G Cb unit) (w : World G Cb) h :
  (forall cb, safe Base (body cb)) -> good Base w -> good Base (fire body h w).
Proof.
  intros Hbody Hg. unfold fire. destruct (timers w !! h) as [tm|] eqn:Hl; [ | exact Hg ].
  destruct (repeats tm) eqn:Hr.
  { destruct (task tm) as [ uid action | k | cb ] eqn:Htask.
    - apply good_deadline. exact Hg.
    - apply good_spawn; [ | exact Hg ]. destruct Hg as [_ _ Hd]. eapply Hd; eassumption.
    - apply good_spawn; [ apply Hbody | exact Hg ]. }
  destruct (task tm) as [ uid action | k | cb ] eqn:Htask.
  - unfold deadline. cbn [pending with_timers].
    destruct (pending w !! uid) as [p|] eqn:Hp.
    + apply good_spawn.
      * destruct Hg as [_ Hpend _]. eauto.
      * eapply good_timeout; eassumption.
    + eapply good_expire; try eassumption.
      intros uid' action' Heq. rewrite Htask in Heq. injection Heq as <- <-. exact Hp.
  - apply good_spawn.
    + destruct Hg as [_ _ Hd]. eapply Hd; eassumption.
    + eapply good_expire; try eassumption. intros ? ? Heq. rewrite Htask in Heq. discriminate Heq.
  - apply good_spawn; [ apply Hbody | ].
    eapply good_expire; try eassumption. intros ? ? Heq. rewrite Htask in Heq. discriminate Heq.
Qed.

End SafetyFacts.

(** ** Invariants: the event loop of the headless simulator *)

Section HeadlessSafety.
Import Headless HeadlessInvariants.

Variable Base : State -> Prop.

Hypothesis Base_forget :
  forall w u, Base w -> Base (with_pending (delete u (pending w)) w).
Hypothesis Base_expire :
  forall w h tm, timers w !! h = Some tm -> repeats tm = false ->
    (forall uid action, task tm = RequestDeadline uid action -> pending w !! uid = None) ->
    Base w -> Base (with_timers (delete h (timers w)) (next_timer w) w).
Hypothesis Base_timeout :
  forall w h tm uid action, timers w !! h = Some tm -> repeats tm = false ->
    task tm = RequestDeadline uid action ->
    Base w ->
    Base (with_pending (delete uid (pending w))
            (with_timers (delete h (timers w)) (next_timer w) w)).
Hypothesis Base_clock : forall w t, Base w -> Base (with_clock t w).
Hypothesis safe_log : forall args, safe Base (log args).
Hypothesis safe_on_open : safe Base on_open.
Hypothesis safe_on_close : forall code reason, safe Base (on_close code reason).
Hypothesis safe_callback : forall cb, safe Base (callback cb).
Hypothesis safe_dispatched :
  forall uid action payload, safe Base (dispatched uid action payload).

Lemma good_on_message (w : State) (msg : JVal) :
  good Base w -> good Base (on_message msg w).
Proof.
  intros Hg. unfold on_message.
  destruct msg as [ | | | | | items | ]; try (apply good_spawn; [ apply safe_log | exact Hg ]).
  destruct items as [ | type [ | uid [ | third rest ] ] ];
    try (apply good_spawn; [ apply safe_log | exact Hg ]).
  assert (Hsettle : forall o args,
    match pending_get uid w with
    | None => True
    | Some (u, p) =>
        good Base (spawn (p_settle p o)
                     (spawn (log args) (with_pending (delete u (pending w)) w)))
    end).
  { intros o args. unfold pending_get.
    destruct uid as [ | | | | u | | ]; try exact I.
    destruct (pending w !! u) as [p|] eqn:Hl; [ | exact I ].
    apply good_spawn.
    - destruct Hg as [_ Hp _]. eauto.
    - apply good_spawn; [ apply safe_log | ].
      apply good_forget; [ exact Base_forget | exact Hg ]. }
  destruct (is_num type 3).
  { specialize (Hsettle (Resolved third)).
    destruct (pending_get uid w) as [[u p]|]; [ apply Hsettle | exact Hg ]. }
  destruct (is_num type 4).
  { specialize (Hsettle (Rejected (mkError
       (match pending_get uid w with
        | Some (_, p) => p_action p +:+ " failed: " +:+ to_string third +:+ " "
                           +:+ to_string (hd JUndef rest)
        | None => ""
        end)))).
    destruct (pending_get uid w) as [[u p]|]; [ apply Hsettle | exact Hg ]. }
  destruct (is_num type 2).
  { apply good_spawn; [ apply safe_dispatched | exact Hg ]. }
  apply good_spawn; [ apply safe_log | exact Hg ].
Qed.

Lemma good_deliver (w : State) (ev : Event) :
  good Base w -> good Base (deliver w ev).
Proof.
  intros Hg. destruct ev as [ | msg | data | code reason | msg | h | t ]; cbn [deliver].
  - apply good_spawn; [ apply safe_on_open | exact Hg ].
  - apply good_on_message. exact Hg.
  - apply good_spawn; [ apply safe_log | exact Hg ].
  - apply good_spawn; [ apply safe_on_close | exact Hg ].
  - apply good_spawn; [ apply safe_log | exact Hg ].
  - apply good_fire;
      [ exact Base_forget | exact Base_expire | exact Base_timeout | exact safe_callback
      | exact Hg ].
  - destruct Hg as [Hb Hp Hd]. split; [ apply Base_clock; exact Hb | exact Hp | exact Hd ].
Qed.

Lemma good_deliver_all (evs : list Event) (w : State) :
  good Base w -> good Base (deliver_all w evs).
Proof.
  revert w. induction evs as [ | ev evs IH ]; intros w Hg; [ exact Hg | ].
  change (deliver_all w (ev :: evs)) with (deliver_all (deliver w ev) evs).
  apply IH. apply good_deliver. exact Hg.
Qed.

Hypothesis safe_main : safe Base main.

Lemma good_start (t0 : string) (draws : nat -> Q) :
  Base (boot_world t0 draws) -> good Base (start t0 draws).
Proof.
  intros Hb. apply good_spawn; [ exact safe_main | ].
  split; [ exact Hb | | ].
  - intros u p o Hl. cbn in Hl. rewrite lookup_empty in Hl. discriminate Hl.
  - intros h tm k Hl. cbn in Hl. rewrite lookup_empty in Hl. discriminate Hl.
Qed.

Lemma reachable_good (t0 : string) (draws : nat -> Q) (evs : list Event) :
  Base (boot_world t0 draws) -> good Base (deliver_all (start t0 draws) evs).
Proof.
  intros Hb. apply good_deliver_all. apply good_start. exact Hb.
Qed.

End HeadlessSafety.

(** ** Invariants: symbolic execution of the handlers *)

(** Case analysis on what a run is stuck on. *)
Ltac case_goal :=
  match goal with
  | |- context [if negb ?b then _ else _] => destruct b eqn:?
  | |- context [if ?b then _ else _] => destruct b eqn:?
  | |- context [match ?x with Some _ => _ | None => _ end] => destruct x eqn:?
  | |- context [match ?x with JUndef => _ | _ => _ end] => destruct x eqn:?
  end.

Ltac case_hyp H :=
  match type of H with
  | context [if negb ?b then _ else _] => destruct b eqn:?
  | context [if ?b then _ else _] => destruct b eqn:?
  | context [match ?x with Some _ => _ | None => _ end] => destruct x eqn:?
  | context [match ?x with JUndef => _ | _ => _ end] => destruct x eqn:?
  end.

(** Evaluation that leaves the arithmetic on rationals folded. *)
Ltac eval_goal := cbn -[Qfloor Qplus Qmult].
Ltac eval_hyp H := cbn -[Qfloor Qplus Qmult] in H.

Ltac exec_goal := repeat (eval_goal; unfold get, clearTimer; eval_goal; try case_goal).
Ltac exec_hyp H := repeat (eval_hyp H; unfold get, clearTimer in H; eval_hyp H; try case_hyp H).

(** [safe Base t] for a handler [t] of the program: every run to the next
    suspension point is executed on an arbitrary world, and [solver] shows
    [Base] of the world it ends in. *)
Ltac safe_tac solver :=
  eval_goal; apply safe_intro;
  [ let w := fresh "w" in let HB := fresh "HB" in
    intros w HB; unfold spawn; exec_goal; solver HB
  | let w := fresh "w" in let HB := fresh "HB" in let Hrun := fresh "Hrun" in
    let o := fresh "o" in
    intros w ? ? ? HB Hrun o; clear HB; exec_hyp Hrun;
    first [ discriminate Hrun
          | inversion Hrun; subst; clear Hrun; destruct o; safe_tac solver ]
  | let w := fresh "w" in let HB := fresh "HB" in let Hrun := fresh "Hrun" in
    intros w ? ? HB Hrun; clear HB; exec_hyp Hrun;
    first [ discriminate Hrun
          | inversion Hrun; subst; clear Hrun; safe_tac solver ] ].

(** ** Invariant: the transaction record and the failures of calls *)

Section Session.
Import Headless HeadlessInvariants.

Lemma defined_nullish (v : JVal) : defined (js_nullish v (JNum 1)).
Proof. destruct v; split; discriminate. Qed.

Lemma truthy_or (v : JVal) (s : string) : s <> "" -> truthy (js_or v (JStr s)) = true.
Proof.
  intros Hs. unfold js_or. destruct (truthy v) eqn:Hv; [ exact Hv | ].
  cbn. destruct (String.eqb_spec s ""); [ contradiction | reflexivity ].
Qed.

Ltac so_frame Hrec :=
  cbn;
  try exact I;
  try (intros [Ha | Ha]; try discriminate Ha);
  try (unfold record_consistent in Hrec; cbn in Hrec;
       repeat match goal with
       | E : transactionActive _ = _ |- _ => rewrite E in Hrec
       end;
       apply Hrec).

Ltac so_solver HB :=
  let Hrec := fresh "Hrec" in let Hsent := fresh "Hsent" in let Hok := fresh "Hok" in
  destruct HB as [Hrec Hsent Hok]; constructor;
  [ unfold record_consistent in *; cbn in *;
    first [ exact Hrec
          | split; [ first [ apply defined_nullish | split; discriminate ]
                   | apply truthy_or; discriminate ]
          | split; reflexivity ]
  | frames;
    first [ exact Hsent
          | apply Forall_app; split; [ exact Hsent | ];
            repeat (apply Forall_cons; split; [ so_frame Hrec | ]); constructor ]
  | cbn; repeat rewrite Forall_app; repeat rewrite Forall_singleton; cbn;
    repeat split; first [ exact Hok | exact I ] ].

Lemma so_on_open : safe session_ok on_open.
Proof. safe_tac so_solver. Qed.

Lemma so_on_close code reason : safe session_ok (on_close code reason).
Proof. safe_tac so_solver. Qed.

Lemma so_log args : safe session_ok (log (G:=Globals) (Cb:=Callback) args).
Proof. safe_tac so_solver. Qed.

Lemma so_main : safe session_ok main.
Proof. safe_tac so_solver. Qed.

Lemma so_callback cb : safe session_ok (callback cb).
Proof. destruct cb; safe_tac so_solver. Qed.

Lemma so_dispatched uid action payload : safe session_ok (dispatched uid action payload).
Proof. unfold dispatched, handleIncoming. safe_tac so_solver. Qed.

Lemma session_reachable (t0 : string) (draws : nat -> Q) (evs : list Event) :
  session_ok (deliver_all (start t0 draws) evs).
Proof.
  apply (good_base session_ok).
  apply reachable_good.
  - intros w u [Hrec Hsent Hok]. constructor; assumption.
  - intros w h tm _ _ _ [Hrec Hsent Hok]. constructor; assumption.
  - intros w h tm uid action _ _ _ [Hrec Hsent Hok]. constructor; assumption.
  - intros w t [Hrec Hsent Hok]. constructor; assumption.
  - exact so_log.
  - exact so_on_open.
  - exact so_on_close.
  - exact so_callback.
  - exact so_dispatched.
  - exact so_main.
  - constructor; [ split; reflexivity | constructor | constructor ].
Qed.

(** X11.  The transaction record of the headless simulator.  After any
    sequence of events from the start of the program: if
    [transactionActive] is true then [transactionId] is neither [null] nor
    [undefined] and [lastIdTag] is truthy, and if it is false both are
    [null]; and every StopTransaction and MeterValues call sent so far
    carries a [transactionId] that is neither [null] nor [undefined]. *)
Theorem transaction_record_kept (t0 : string) (draws : nat -> Q) (evs : list Event) :
  let w := deliver_all (start t0 draws) evs in
  record_consistent (globals w)
  /\ Forall names_transaction (sent w).
Proof.
  cbn zeta. destruct (session_reachable t0 draws evs) as [Hrec Hsent _].
  split; assumption.
Qed.


End Session.

(** ** Invariant: timers and calls *)

Section Runtime.
Import Headless HeadlessInvariants.

Lemma uuid_of_inj (n m : nat) : uuid_of n = uuid_of m -> n = m.
Proof.
  unfold uuid_of. cbn. intros H. injection H as H. exact (inj pretty _ _ H).
Qed.

Lemma issued_later (w w' : State) (u : string) :
  (uuids w <= uuids w')%nat -> issued w u -> issued w' u.
Proof. intros Hle (n & Hn & ->). exists n. split; [ lia | reflexivity ]. Qed.

Lemma issued_next (w w' : State) :
  (uuids w < uuids w')%nat -> issued w' (uuid_of (uuids w)).
Proof. intros Hlt. exists (uuids w). split; [ exact Hlt | reflexivity ]. Qed.

Lemma issued_not_next (w : State) (u : string) (k : nat) :
  issued w u -> u <> uuid_of (uuids w + k).
Proof. intros (n & Hn & ->) Heq. apply uuid_of_inj in Heq. lia. Qed.

(** Decompose a lookup in a table built by insertions and deletions. *)
Ltac lookup_cases H :=
  repeat first
    [ let Heq := fresh "Heq" in let Hv := fresh "Hv" in let Hne := fresh "Hne" in
      apply lookup_insert_Some in H as [[Heq Hv] | [Hne H]]
    | let Hne := fresh "Hne" in
      apply lookup_delete_Some in H as [Hne H] ].

(** The handle of a deadline is not the handle an interval variable holds. *)
Ltac other_kind HB :=
  let Hk := fresh "Hk" in
  intros ->;
  match goal with
  | E : hbTimer (globals ?w) = Some ?x, Hh : timers ?w !! ?x = Some _ |- _ =>
      destruct (rt_hb_var _ HB _ E) as [_ Hk]; specialize (Hk _ Hh); discriminate Hk
  | E : meterTimer (globals ?w) = Some ?x, Hh : timers ?w !! ?x = Some _ |- _ =>
      destruct (rt_meter_var _ HB _ E) as [_ Hk]; specialize (Hk _ Hh); discriminate Hk
  end.

Ltac rt_timers HB :=
  let h := fresh "h" in let tm := fresh "tm" in let Hl := fresh "Hl" in
  intros h tm Hl; lookup_cases Hl;
  [ subst; cbn; lia .. | apply (rt_fresh _ HB) in Hl; cbn; lia ].

Ltac rt_tracked HB field :=
  let h := fresh "h" in let tm := fresh "tm" in let Hl := fresh "Hl" in
  let Htask := fresh "Htask" in let Hold := fresh "Hold" in
  intros h tm Hl Htask; lookup_cases Hl;
  [ subst; cbn in *; first [ discriminate Htask | reflexivity ] ..
  | pose proof (field _ HB _ _ Hl Htask) as Hold; cbn; congruence ].

Ltac rt_variable HB field :=
  let h := fresh "h" in let Hv := fresh "Hv" in let Hlt := fresh "Hlt" in
  let Hkind := fresh "Hkind" in let tm := fresh "tm" in let Hl := fresh "Hl" in
  intros h Hv; cbn in Hv;
  first
    [ discriminate Hv
    | injection Hv as <-; split;
      [ cbn; lia
      | intros tm Hl; lookup_cases Hl;
        [ first [ exfalso; lia | subst; reflexivity ] ..
        | apply (rt_fresh _ HB) in Hl; exfalso; lia ] ]
    | destruct (field _ HB _ Hv) as [Hlt Hkind]; split;
      [ cbn; lia
      | intros tm Hl; lookup_cases Hl;
        [ exfalso; lia .. | apply Hkind; exact Hl ] ] ].

Ltac rt_pending_ids HB :=
  let u := fresh "u" in let p := fresh "p" in let Hl := fresh "Hl" in
  intros u p Hl; lookup_cases Hl;
  [ subst; apply issued_next; cbn; lia ..
  | apply (issued_later _ _ _) with (2 := rt_ids _ HB _ _ Hl); cbn; lia ].

Ltac rt_deadlines HB :=
  let u := fresh "u" in let p := fresh "p" in let Hl := fresh "Hl" in
  let h := fresh "h" in let Hh := fresh "Hh" in let Hlt := fresh "Hlt" in
  intros u p Hl; lookup_cases Hl;
  [ subst; eexists; apply lookup_insert_eq ..
  | destruct (rt_deadline _ HB _ _ Hl) as [h Hh];
    pose proof (rt_fresh _ HB _ _ Hh) as Hlt;
    exists h;
    repeat first [ rewrite lookup_insert_ne by lia
                 | rewrite lookup_delete_ne by other_kind HB ];
    exact Hh ].

Ltac rt_sent :=
  unfold call_ids; frames; repeat rewrite omap_app; cbn.

Ltac rt_call_ids HB :=
  let u := fresh "u" in let Hin := fresh "Hin" in
  rt_sent; intros u Hin;
  repeat (apply elem_of_app in Hin as [Hin | Hin]);
  first
    [ apply (issued_later _ _ _) with (2 := rt_calls _ HB _ Hin); cbn; lia
    | apply list_elem_of_singleton in Hin as ->; apply issued_next; cbn; lia
    | apply elem_of_nil in Hin; destruct Hin ].

Ltac rt_no_dup HB :=
  let u := fresh "u" in let Hin := fresh "Hin" in let Hnew := fresh "Hnew" in
  rt_sent;
  first
    [ exact (rt_distinct _ HB)
    | apply NoDup_app; split; [ exact (rt_distinct _ HB) | split ];
      [ intros u Hin Hnew; apply list_elem_of_singleton in Hnew;
        apply (issued_not_next _ _ 0 (rt_calls _ HB _ Hin));
        rewrite Nat.add_0_r; exact Hnew
      | apply NoDup_singleton ] ].

Ltac rt_solver HB :=
  constructor; cbn;
  [ rt_timers HB
  | rt_tracked HB rt_hb
  | rt_tracked HB rt_meter
  | rt_variable HB rt_hb_var
  | rt_variable HB rt_meter_var
  | rt_pending_ids HB
  | rt_deadlines HB
  | rt_call_ids HB
  | rt_no_dup HB ].

Lemma rt_on_open : safe runtime_ok on_open.
Proof. safe_tac rt_solver. Qed.

Lemma rt_on_close code reason : safe runtime_ok (on_close code reason).
Proof. safe_tac rt_solver. Qed.

Lemma rt_log args : safe runtime_ok (log (G:=Globals) (Cb:=Callback) args).
Proof. safe_tac rt_solver. Qed.

Lemma rt_main : safe runtime_ok main.
Proof. safe_tac rt_solver. Qed.

Lemma rt_callback cb : safe runtime_ok (callback cb).
Proof. destruct cb; safe_tac rt_solver. Qed.

Lemma rt_dispatched uid action payload : safe runtime_ok (dispatched uid action payload).
Proof. unfold dispatched, handleIncoming. safe_tac rt_solver. Qed.

Lemma rt_forget (w : State) (u : string) :
  runtime_ok w -> runtime_ok (with_pending (delete u (pending w)) w).
Proof.
  intros HB. destruct HB as [H1 H2 H3 H4 H5 H6 H7 H8 H9].
  constructor; cbn; try assumption.
  - intros u' p Hl. apply lookup_delete_Some in Hl as [_ Hl]. eauto.
  - intros u' p Hl. apply lookup_delete_Some in Hl as [_ Hl]. eauto.
Qed.

Lemma rt_unarmed (w : State) (h : nat) :
  (forall u p h', pending w !! u = Some p ->
     timers w !! h' = Some (deadline_timer u (p_action p)) -> h' <> h) ->
  runtime_ok w -> runtime_ok (with_timers (delete h (timers w)) (next_timer w) w).
Proof.
  intros Hother HB. destruct HB as [H1 H2 H3 H4 H5 H6 H7 H8 H9].
  constructor; cbn; try assumption.
  - intros h' tm Hl. apply lookup_delete_Some in Hl as [_ Hl]. eauto.
  - intros h' tm Hl. apply lookup_delete_Some in Hl as [_ Hl]. eauto.
  - intros h' tm Hl. apply lookup_delete_Some in Hl as [_ Hl]. eauto.
  - intros h' Hv. destruct (H4 _ Hv) as [Hlt Hk]. split; [ exact Hlt | ].
    intros tm Hl. apply lookup_delete_Some in Hl as [_ Hl]. eauto.
  - intros h' Hv. destruct (H5 _ Hv) as [Hlt Hk]. split; [ exact Hlt | ].
    intros tm Hl. apply lookup_delete_Some in Hl as [_ Hl]. eauto.
  - intros u p Hl. destruct (H7 _ _ Hl) as [h' Hh]. exists h'.
    rewrite lookup_delete_ne; [ exact Hh | ].
    intros <-. exact (Hother _ _ _ Hl Hh eq_refl).
Qed.

Lemma rt_expire (w : State) (h : nat) (tm : Timer Globals Callback) :
  timers w !! h = Some tm -> repeats tm = false ->
  (forall uid action, task tm = RequestDeadline uid action -> pending w !! uid = None) ->
  runtime_ok w -> runtime_ok (with_timers (delete h (timers w)) (next_timer w) w).
Proof.
  intros Hl _ Hnone HB. apply rt_unarmed; [ | exact HB ].
  intros u p h' Hp Hh ->. rewrite Hl in Hh. injection Hh as ->.
  rewrite (Hnone _ _ eq_refl) in Hp. discriminate Hp.
Qed.

Lemma rt_timeout (w : State) (h : nat) (tm : Timer Globals Callback) (uid action : string) :
  timers w !! h = Some tm -> repeats tm = false -> task tm = RequestDeadline uid action ->
  runtime_ok w ->
  runtime_ok (with_pending (delete uid (pending w))
                (with_timers (delete h (timers w)) (next_timer w) w)).
Proof.
  intros Hl _ Htask HB.
  destruct HB as [H1 H2 H3 H4 H5 H6 H7 H8 H9].
  constructor; cbn; try assumption.
  - intros h' tm' Hl'. apply lookup_delete_Some in Hl' as [_ Hl']. eauto.
  - intros h' tm' Hl'. apply lookup_delete_Some in Hl' as [_ Hl']. eauto.
  - intros h' tm' Hl'. apply lookup_delete_Some in Hl' as [_ Hl']. eauto.
  - intros h' Hv. destruct (H4 _ Hv) as [Hlt Hk]. split; [ exact Hlt | ].
    intros tm' Hl'. apply lookup_delete_Some in Hl' as [_ Hl']. eauto.
  - intros h' Hv. destruct (H5 _ Hv) as [Hlt Hk]. split; [ exact Hlt | ].
    intros tm' Hl'. apply lookup_delete_Some in Hl' as [_ Hl']. eauto.
  - intros u p Hp. apply lookup_delete_Some in Hp as [_ Hp]. eauto.
  - intros u p Hp. apply lookup_delete_Some in Hp as [Hne Hp].
    destruct (H7 _ _ Hp) as [h' Hh]. exists h'.
    rewrite lookup_delete_ne; [ exact Hh | ].
    intros <-. rewrite Hl in Hh. injection Hh as ->. cbn in Htask.
    injection Htask as -> _. apply Hne. reflexivity.
Qed.

Lemma rt_clock (w : State) (t : string) : runtime_ok w -> runtime_ok (with_clock t w).
Proof. intros [H1 H2 H3 H4 H5 H6 H7 H8 H9]. constructor; assumption. Qed.

Lemma rt_boot_world (t0 : string) (draws : nat -> Q) : runtime_ok (boot_world t0 draws).
Proof.
  constructor; cbn.
  - intros h tm Hl. rewrite lookup_empty in Hl. discriminate Hl.
  - intros h tm Hl. rewrite lookup_empty in Hl. discriminate Hl.
  - intros h tm Hl. rewrite lookup_empty in Hl. discriminate Hl.
  - intros h Hv. discriminate Hv.
  - intros h Hv. discriminate Hv.
  - intros u p Hl. rewrite lookup_empty in Hl. discriminate Hl.
  - intros u p Hl. rewrite lookup_empty in Hl. discriminate Hl.
  - intros u Hin. apply elem_of_nil in Hin. destruct Hin.
  - apply NoDup_nil_2.
Qed.

Lemma runtime_reachable (t0 : string) (draws : nat -> Q) (evs : list Event) :
  runtime_ok (deliver_all (start t0 draws) evs).
Proof.
  apply (good_base runtime_ok).
  apply reachable_good.
  - exact rt_forget.
  - exact rt_expire.
  - exact rt_timeout.
  - exact rt_clock.
  - exact rt_log.
  - exact rt_on_open.
  - exact rt_on_close.
  - exact rt_callback.
  - exact rt_dispatched.
  - exact rt_main.
  - apply rt_boot_world.
Qed.

(** X13.  The two intervals.  After any sequence of events from the start
    of the program there is at most one live heartbeat interval and at most
    one live metering interval, it is the one whose handle [hbTimer]
    (resp. [meterTimer]) holds, and its handle is below the next handle the
    runtime will give out. *)
Theorem intervals_are_single (t0 : string) (draws : nat -> Q) (evs : list Event)
    (cb : Callback) (h h' : nat) (tm tm' : Timer Globals Callback) :
  let w := deliver_all (start t0 draws) evs in
  cb = HeartbeatTick \/ cb = MeterTick ->
  timers w !! h = Some tm -> task tm = Invoke cb ->
  timers w !! h' = Some tm' -> task tm' = Invoke cb ->
  h = h'
  /\ (h < next_timer w)%nat
  /\ (cb = HeartbeatTick -> hbTimer (globals w) = Some h)
  /\ (cb = MeterTick -> meterTimer (globals w) = Some h).
Proof.
  cbn zeta. intros Hcb Hl Htask Hl' Htask'.
  pose proof (runtime_reachable t0 draws evs) as HB.
  repeat apply conj.
  - destruct Hcb as [-> | ->].
    + pose proof (rt_hb _ HB _ _ Hl Htask) as H1.
      pose proof (rt_hb _ HB _ _ Hl' Htask') as H2. congruence.
    + pose proof (rt_meter _ HB _ _ Hl Htask) as H1.
      pose proof (rt_meter _ HB _ _ Hl' Htask') as H2. congruence.
  - exact (rt_fresh _ HB _ _ Hl).
  - intros ->. exact (rt_hb _ HB _ _ Hl Htask).
  - intros ->. exact (rt_meter _ HB _ _ Hl Htask).
Qed.

(** The theorem after [session_events], where the metering interval is
    timer 7. *)
Lemma intervals_are_single_witness :
  let w := deliver_all (start HeadlessScenario.t0 HeadlessScenario.draws) session_events in
  timers w !! 7%nat = Some HeadlessScenario.meter_timer
  /\ meterTimer (globals w) = Some 7%nat.
Proof.
  cbn zeta.
  assert (Hl : timers (deliver_all (start HeadlessScenario.t0 HeadlessScenario.draws)
                         session_events) !! 7%nat
               = Some HeadlessScenario.meter_timer) by (vm_compute; reflexivity).
  split; [ exact Hl | ].
  destruct (intervals_are_single HeadlessScenario.t0 HeadlessScenario.draws session_events
              MeterTick 7 7 _ _ (or_intror eq_refl) Hl eq_refl Hl eq_refl)
    as (_ & _ & _ & H).
  exact (H eq_refl).
Defined.

(** X14.  Every pending call has its deadline armed.  After any sequence
    of events from the start of the program, for every entry of [pending]
    a 20 s timer for that id and action is live, and when it fires the
    entry is removed and the caller is completed with the error
    ["Timeout waiting for <action> (<id>)"]. *)
Theorem pending_calls_expire (t0 : string) (draws : nat -> Q) (evs : list Event) :
  let w := deliver_all (start t0 draws) evs in
  forall u p, pending w !! u = Some p ->
    exists h,
      timers w !! h = Some (deadline_timer u (p_action p))
      /\ deliver w (Fire h)
         = spawn (p_settle p (Rejected (mkError
                    ("Timeout waiting for " +:+ p_action p +:+ " (" +:+ u +:+ ")"))))
             (with_pending (delete u (pending w))
                (with_timers (delete h (timers w)) (next_timer w) w)).
Proof.
  cbn zeta. intros u p Hp.
  destruct (rt_deadline _ (runtime_reachable t0 draws evs) _ _ Hp) as [h Hh].
  exists h. split; [ exact Hh | ].
  cbn [deliver]. unfold fire. rewrite Hh. cbn [repeats task deadline_timer].
  unfold deadline. cbn [pending with_timers]. rewrite Hp. reflexivity.
Qed.

(** The theorem once the socket has opened: the BootNotification call
    [uuid-0] is pending. *)
Lemma pending_calls_expire_witness :
  let w := deliver_all (start HeadlessScenario.t0 HeadlessScenario.draws) [Open] in
  exists p h,
    pending w !! "uuid-0" = Some p
    /\ timers w !! h = Some (deadline_timer "uuid-0" (p_action p))
    /\ deliver w (Fire h)
       = spawn (p_settle p (Rejected (mkError
                  ("Timeout waiting for " +:+ p_action p +:+ " (" +:+ "uuid-0" +:+ ")"))))
           (with_pending (delete "uuid-0" (pending w))
              (with_timers (delete h (timers w)) (next_timer w) w)).
Proof.
  cbn zeta.
  destruct (pending (deliver_all (start HeadlessScenario.t0 HeadlessScenario.draws) [Open])
              !! "uuid-0") as [p|] eqn:Hp.
  - destruct (pending_calls_expire HeadlessScenario.t0 HeadlessScenario.draws [Open]
                "uuid-0" p Hp) as (h & Hh & Hfire).
    exists p, h. split; [ reflexivity | ]. split; [ exact Hh | exact Hfire ].
  - exfalso. revert Hp. vm_compute. discriminate.
Defined.


End Runtime.

(** ** Invariant: the meter *)

Section Meter.
Import Headless HeadlessInvariants.












End Meter.
